(** * Image-to-video generation: submission route, status route and the
      client-side polling state machine.

    The development follows the three source files:
    - the submission route handler [POST] (module [Generate]),
    - the status route handler [GET] (module [Status]),
    - the page component with its upload, generate, poll and reset handlers
      (module [Page]).

    JavaScript values are embedded as a small tagged union, JavaScript numbers
    as IEEE binary64 floats, exceptions as an error monad over the state a
    handler works on (the module-level singleton of a route file, the React
    state of the page), and the calls to the provider SDK, the requests, the
    timers and the toasts as logs.  Console output is left out.  State
    setters are applied in program order, which is the state React renders
    once a handler has run. *)

From Stdlib Require Import ZArith List String Ascii Bool Lia.
From Stdlib Require Import Floats DecimalString.
Import ListNotations.
Open Scope string_scope.

(* ------------------------------------------------------------------ *)
(** ** The fragment of JavaScript values the handlers manipulate *)

Module JS.

(** Values that reach the handlers: a JSON body field, a field of a provider
    response, or [undefined] for a property that is not there. *)
Inductive value : Type :=
| JUndefined
| JNull
| JBool (b : bool)
| JNum (x : float)
| JStr (s : string).

(** ToBoolean: [undefined], [null], [false], [0], [-0], [NaN] and the empty
    string are falsy; everything else is truthy. *)
Definition truthy (v : value) : bool :=
  match v with
  | JUndefined | JNull => false
  | JBool b => b
  | JNum x => negb (PrimFloat.eqb x 0%float) && negb (PrimFloat.is_nan x)
  | JStr s => negb (String.eqb s "")
  end.

(** [a || b] *)
Definition or_else (a b : value) : value := if truthy a then a else b.

(** [a === b], on the values above. *)
Definition strict_eq (a b : value) : bool :=
  match a, b with
  | JUndefined, JUndefined => true
  | JNull, JNull => true
  | JBool x, JBool y => Bool.eqb x y
  | JNum x, JNum y => PrimFloat.eqb x y
  | JStr x, JStr y => String.eqb x y
  | _, _ => false
  end.

(** What a [throw] carries: an [Error] object with its message, or any other
    thrown value. *)
Inductive exn : Type :=
| Error (message : string)
| Thrown (v : value).

(** [error instanceof Error ? error.message : fallback] *)
Definition message_or (e : exn) (fallback : string) : string :=
  match e with
  | Error m => m
  | Thrown _ => fallback
  end.

(** [v.startsWith(p)]: defined on strings; on any other truthy value the
    property is not a function and the call throws a TypeError. *)
Definition startsWith (v : value) (p : string) : exn + bool :=
  match v with
  | JStr s => inr (String.prefix p s)
  | _ => inl (Error "imageData.startsWith is not a function")
  end.

End JS.
Import JS.

Notation "a '|||' b" := (or_else a b) (at level 50, left associativity).

(* ------------------------------------------------------------------ *)
(** ** The provider SDK, as the handlers see it *)

Module Provider.

(** The client handle returned by [ZAI.create()]. *)
Definition handle := nat.

(** Argument of [zai.video.generations.create]. *)
Record generation_params : Type := {
  image_url : value;
  prompt : value;
  quality : value;
  duration : value;
  fps : value;
  size : value
}.

(** Result of [zai.video.generations.create]. *)
Record created_task : Type := {
  id : value;
  created_status : value   (* task_status *)
}.

(** Result of [zai.async.result.query].  [video_result] is [None] when the
    property is [undefined] or [null]; an entry of the list is [None] when
    it is [undefined] or [null], and [Some u] when it is an object whose
    [url] property is [u] ([JUndefined] when the object has none). *)
Record query_result : Type := {
  task_status : value;
  video_result : option (list (option value));
  video_url : value;
  url : value;
  video : value
}.

(** A call that reached the SDK. *)
Inductive call : Type :=
| CreateClient
| GenerationsCreate (p : generation_params)
| ResultQuery (taskId : string).

(** How the SDK answers during one handler invocation: every call either
    throws or returns. *)
Record behaviour : Type := {
  create : exn + handle;
  generations_create : generation_params -> exn + created_task;
  result_query : string -> exn + query_result
}.

(** A provider result with the given status and no result location. *)
Definition bare (st : value) : query_result :=
  {| task_status := st; video_result := None; video_url := JUndefined;
     url := JUndefined; video := JUndefined |}.

(** An SDK whose calls all return: the query answers [result]. *)
Definition answering (result : query_result) : behaviour :=
  {| create := inr 1%nat;
     generations_create := fun _ =>
       inr {| id := JStr "task-1"; created_status := JStr "PROCESSING" |};
     result_query := fun _ => inr result |}.

Definition obliging : behaviour := answering (bare (JStr "PROCESSING")).

(** A finished task whose result sits in the list and in [video_url]. *)
Definition two_locations : query_result :=
  {| task_status := JStr "SUCCESS";
     video_result := Some [Some (JStr "https://a.example/v.mp4")];
     video_url := JStr "https://b.example/v.mp4";
     url := JUndefined;
     video := JStr "" |}.

(** A finished task whose list has two entries, with other URLs in the flat
    fields. *)
Definition two_entries : query_result :=
  {| task_status := JStr "SUCCESS";
     video_result := Some [Some (JStr "https://a.example/v.mp4");
                           Some (JStr "https://z.example/v.mp4")];
     video_url := JStr "https://b.example/v.mp4";
     url := JStr "https://c.example/v.mp4";
     video := JStr "" |}.

End Provider.
Import Provider.

(* ------------------------------------------------------------------ *)
(** ** Computations that may throw, over a state *)

Module Eff.

Section WithState.
Context {St : Type}.

(** A computation either throws or returns, and leaves a state behind in
    both cases: what was done before a [throw] stays done. *)
Definition M (A : Type) : Type := St -> (exn + A) * St.

Definition ret {A} (a : A) : M A := fun w => (inr a, w).

Definition throw {A} (e : exn) : M A := fun w => (inl e, w).

Definition bind {A B} (m : M A) (k : A -> M B) : M B :=
  fun w =>
    match m w with
    | (inl e, w') => (inl e, w')
    | (inr a, w') => k a w'
    end.

(** [try { m } catch (error) { h error }] *)
Definition try_catch {A} (m : M A) (h : exn -> M A) : M A :=
  fun w =>
    match m w with
    | (inl e, w') => h e w'
    | (inr a, w') => (inr a, w')
    end.

(** An outcome decided outside the handler (an awaited promise). *)
Definition lift {A} (r : exn + A) : M A := fun w => (r, w).

Definition modify (f : St -> St) : M unit := fun w => (inr tt, f w).

End WithState.

End Eff.
Import Eff.

Notation "x <- m ;; k" := (bind m (fun x => k))
  (at level 61, m at next level, right associativity).
Notation "m ;;; k" := (bind m (fun _ => k))
  (at level 61, right associativity).

(* ------------------------------------------------------------------ *)
(** ** Route handlers: module state and call log *)

Module Server.

(** The state of a route module: its [zaiInstance] singleton, and the calls
    made to the SDK so far (oldest first). *)
Record world : Type := {
  zaiInstance : option handle;
  calls : list call
}.

Definition fresh : world := {| zaiInstance := None; calls := [] |}.

(** A call to the SDK: logged, then it throws or returns. *)
Definition sdk {A} (c : call) (r : exn + A) : M (St := world) A :=
  fun w => (r, {| zaiInstance := zaiInstance w; calls := calls w ++ [c] |}).

Definition set_instance (h : handle) : M unit :=
  modify (fun w => {| zaiInstance := Some h; calls := calls w |}).

Definition get_instance : M (St := world) (option handle) :=
  fun w => (inr (zaiInstance w), w).

(** [getZAIInstance]: create the client on first use, reuse it afterwards. *)
Definition getZAIInstance (P : behaviour) : M handle :=
  cached <- get_instance ;;
  match cached with
  | Some h => ret h
  | None =>
      h <- sdk CreateClient (create P) ;;
      set_instance h ;;;
      ret h
  end.

(** Bodies of the JSON responses the two routes produce. *)
Inductive json_body : Type :=
| ErrorBody (error : string)
| CreatedBody (success : bool) (taskId : value) (status : value)
| StatusBody (taskId : string) (status : value) (videoUrl : option value).

(** [NextResponse.json(body, { status })]; the status defaults to 200. *)
Record response : Type := {
  code : Z;
  body : json_body
}.

Definition json (b : json_body) : response := {| code := 200; body := b |}.
Definition json_status (b : json_body) (c : Z) : response := {| code := c; body := b |}.

(** The calls [getZAIInstance] makes from a given state. *)
Definition client_calls (w : world) : list call :=
  match zaiInstance w with
  | Some _ => []
  | None => [CreateClient]
  end.

(** The client handle is at hand: cached, or [ZAI.create()] returns one. *)
Definition client_available (P : behaviour) (w : world) : Prop :=
  zaiInstance w <> None \/ exists h, create P = inr h.

(** The number of [ZAI.create()] calls in a call log. *)
Fixpoint creations (l : list call) : nat :=
  match l with
  | [] => O
  | CreateClient :: l' => S (creations l')
  | _ :: l' => creations l'
  end.

(** Successive invocations of one route handler, each with the request it
    receives and the way the SDK answers during it; the module state is
    carried from one invocation to the next. *)
Fixpoint serve_all {Req : Type} (handler : behaviour -> Req -> M (St := world) response)
  (steps : list (behaviour * Req)) (w : world) : list (exn + response) * world :=
  match steps with
  | [] => ([], w)
  | (P, req) :: rest =>
      let '(r, w1) := handler P req w in
      let '(rs, w2) := serve_all handler rest w1 in
      (r :: rs, w2)
  end.

End Server.
Import Server.

(* ------------------------------------------------------------------ *)
(** ** The submission route: [POST /api/video/generate] *)

Module Generate.

(** The fields the handler destructures from the JSON body; a field the
    body does not have is [JUndefined]. *)
Record request_body : Type := {
  imageData : value;
  prompt : value;
  quality : value;
  duration : value;
  fps : value;
  size : value
}.

Definition default_prompt : string :=
  "Make this image come alive with smooth, loopable motion".

Definition invalid_format : string :=
  "Invalid image data format. Must be a base64-encoded image with data URL format".

(** The object passed to [zai.video.generations.create]. *)
Definition params_of (b : request_body) : generation_params :=
  {| Provider.image_url := imageData b;
     Provider.prompt := prompt b ||| JStr default_prompt;
     Provider.quality := quality b ||| JStr "speed";
     Provider.duration := duration b ||| JNum 5;
     Provider.fps := fps b ||| JNum 30;
     Provider.size := size b ||| JStr "1024x1024" |}.

(** The JSON value [request.json()] resolves to, as the destructuring of
    the next line sees it: [NullBody] for [null], and [Body fields] for any
    other value, with the properties the destructuring reads from it, each
    [JUndefined] when the value has no such property (all of them on a
    number, a string, a boolean or an array). *)
Inductive parsed_body : Type :=
| NullBody
| Body (fields : request_body).

(** [const { imageData, prompt, quality, duration, fps, size } = body]:
    reading a property of [null] throws a TypeError. *)
Definition destructure (body : parsed_body) : exn + request_body :=
  match body with
  | Body fields => inr fields
  | NullBody =>
      inl (Error "Cannot destructure property 'imageData' of 'body' as it is null.")
  end.

(** The handler.  [request] is what [await request.json()] gives: the
    parsed body, or the exception it throws on a body that is not JSON. *)
Definition POST (P : behaviour) (request : exn + parsed_body) :
  M (St := world) response :=
  try_catch
    (parsed <- lift request ;;
     body <- lift (destructure parsed) ;;
     if negb (truthy (imageData body)) then
       ret (json_status (ErrorBody "Image data is required") 400)
     else
       prefixed <- lift (startsWith (imageData body) "data:image/") ;;
       if negb prefixed then
         ret (json_status (ErrorBody invalid_format) 400)
       else
         zai <- getZAIInstance P ;;
         task <- sdk (GenerationsCreate (params_of body))
                     (generations_create P (params_of body)) ;;
         ret (json (CreatedBody true (id task) (created_status task))))
    (fun error =>
       ret (json_status
              (ErrorBody (message_or error "Failed to create video generation task"))
              500)).

(** The first two lines of the handler together: the fields read from the
    request, or what was thrown on the way. *)
Definition read_body (request : exn + parsed_body) : exn + request_body :=
  match request with
  | inl e => inl e
  | inr parsed => destructure parsed
  end.

(** A body that carries [imageData] and nothing else. *)
Definition only_image (img : value) : request_body :=
  {| imageData := img; prompt := JUndefined; quality := JUndefined;
     duration := JUndefined; fps := JUndefined; size := JUndefined |}.

(** The parameters of the generation submissions in a call log. *)
Fixpoint submissions (l : list call) : list generation_params :=
  match l with
  | [] => []
  | GenerationsCreate p :: l' => p :: submissions l'
  | _ :: l' => submissions l'
  end.

(** [imageData] is a string with the image data-URL prefix. *)
Definition image_data_url (v : value) : Prop :=
  exists s, v = JStr s /\ String.prefix "data:image/" s = true.

(** [imageData] is absent ([undefined], [null] or any other falsy value),
    or a string that does not start with the image data-URL prefix. *)
Definition absent_or_unprefixed (v : value) : Prop :=
  truthy v = false \/
  exists s, v = JStr s /\ String.prefix "data:image/" s = false.

End Generate.

(* ------------------------------------------------------------------ *)
(** ** The status route: [GET /api/video/status] *)

Module Status.

(** [result.video_result?.[0]?.url] *)
Definition first_entry_url (result : query_result) : value :=
  match video_result result with
  | Some (Some u :: _) => u
  | _ => JUndefined
  end.

(** The chain of [||] that picks the video URL out of a provider result. *)
Definition resolve_video_url (result : query_result) : value :=
  first_entry_url result ||| video_url result ||| url result ||| video result.

(** The [response] object, built in two steps as the handler does: the two
    fixed keys first, then [videoUrl] only for a SUCCESS with a truthy URL. *)
Definition response_of (taskId : string) (result : query_result) : json_body :=
  if strict_eq (task_status result) (JStr "SUCCESS") then
    let videoUrl := resolve_video_url result in
    if truthy videoUrl then StatusBody taskId (task_status result) (Some videoUrl)
    else StatusBody taskId (task_status result) None
  else StatusBody taskId (task_status result) None.

(** [searchParams.get('taskId')]: the parameter's value, or [null]. *)
Definition param_value (p : option string) : value :=
  match p with
  | Some s => JStr s
  | None => JNull
  end.

(** The handler, on the value of the [taskId] query parameter. *)
Definition GET (P : behaviour) (taskId : option string) : M (St := world) response :=
  try_catch
    (match taskId with
     | Some t =>
         if negb (truthy (param_value taskId)) then
           ret (json_status (ErrorBody "Task ID is required") 400)
         else
           zai <- getZAIInstance P ;;
           result <- sdk (ResultQuery t) (result_query P t) ;;
           ret (json (response_of t result))
     | None => ret (json_status (ErrorBody "Task ID is required") 400)
     end)
    (fun error =>
       ret (json_status
              (ErrorBody (message_or error "Failed to query video generation status"))
              500)).

(** The task ids of the status queries in a call log. *)
Fixpoint queries (l : list call) : list string :=
  match l with
  | [] => []
  | ResultQuery t :: l' => t :: queries l'
  | _ :: l' => queries l'
  end.

(** The four recognised locations of the result URL, in the order the
    handler consults them. *)
Definition url_fields (result : query_result) : list value :=
  [first_entry_url result; video_url result; url result; video result].

(** Following the contract's words: the first non-empty (truthy) value of a
    list of candidates, if there is one. *)
Definition first_non_empty (candidates : list value) : option value :=
  find truthy candidates.

(** Following the contract's words: the [videoUrl] of the response is the
    first non-empty recognised field when the status is SUCCESS, and the
    key is left out otherwise. *)
Definition spec_videoUrl (result : query_result) : option value :=
  if strict_eq (task_status result) (JStr "SUCCESS")
  then first_non_empty (url_fields result)
  else None.

End Status.

(* ------------------------------------------------------------------ *)
(** ** Numbers of the page component *)

Module Num.

(** A counter value as a JavaScript number (exact below 2^53). *)
Definition of_nat (n : nat) : float :=
  PrimFloat.of_uint63 (Uint63.of_Z (Z.of_nat n)).

(** [Math.min(a, b)] *)
Definition Math_min (a b : float) : float :=
  if PrimFloat.is_nan a || PrimFloat.is_nan b then PrimFloat.nan
  else if PrimFloat.ltb a b then a else b.

Definition decimal (n : Z) : string :=
  NilZero.string_of_uint (N.to_uint (Z.to_N n)).

(** The integer nearest to ten times [m * 2^e], the larger one on a tie. *)
Definition nearest_tenths (m : positive) (e : Z) : Z :=
  if (0 <=? e)%Z then (10 * Z.pos m * 2 ^ e)%Z
  else ((20 * Z.pos m + 2 ^ (- e)) / (2 * 2 ^ (- e)))%Z.

(** [x.toFixed(1)], for magnitudes below 10^21: the decimal with one
    fraction digit nearest to the exact value of the double. *)
Definition toFixed1 (x : float) : string :=
  match Prim2SF x with
  | S754_zero _ => "0.0"
  | S754_finite sign m e =>
      let n := nearest_tenths m e in
      (if sign then "-" else "") ++ decimal (n / 10) ++ "." ++ decimal (n mod 10)
  | S754_infinity sign => if sign then "-Infinity" else "Infinity"
  | S754_nan => "NaN"
  end.

(** [x <= y] on doubles. *)
Definition le (x y : float) : Prop := PrimFloat.leb x y = true.

(** A number of tenths written with one fraction digit. *)
Definition tenths (n : Z) : string :=
  decimal (n / 10) ++ "." ++ decimal (n mod 10).

End Num.

(* ------------------------------------------------------------------ *)
(** ** The page component: session state and handlers *)

Module Page.

Inductive VideoQuality : Type := Speed | Quality.
Inductive Duration : Type := d5 | d10.
Inductive FPS : Type := f30 | f60.
Inductive Resolution : Type :=
| r1024x1024 | r1920x1080 | r1080x1920 | r1344x768
| r768x1344 | r864x1152 | r1152x864.

Definition quality_string (q : VideoQuality) : string :=
  match q with Speed => "speed" | Quality => "quality" end.

(** [parseInt(duration)] and [parseInt(fps)] on the values of their types. *)
Definition duration_number (d : Duration) : float :=
  match d with d5 => 5%float | d10 => 10%float end.

Definition fps_number (f : FPS) : float :=
  match f with f30 => 30%float | f60 => 60%float end.

Definition resolution_string (r : Resolution) : string :=
  match r with
  | r1024x1024 => "1024x1024" | r1920x1080 => "1920x1080"
  | r1080x1920 => "1080x1920" | r1344x768 => "1344x768"
  | r768x1344 => "768x1344" | r864x1152 => "864x1152"
  | r1152x864 => "1152x864"
  end.

Record GenerateState : Type := {
  isUploading : bool;
  isGenerating : bool;
  isPolling : bool;
  progress : float;
  status : string
}.

(** The React state of the component.  [uploadedImage] is [None] for
    [null]; the other two nullable pieces hold whatever the responses
    carried, [JNull] for [null]. *)
Record Session : Type := {
  uploadedImage : option string;
  generatedVideoUrl : value;
  taskId : value;
  prompt : string;
  quality : VideoQuality;
  duration : Duration;
  fps : FPS;
  resolution : Resolution;
  generateState : GenerateState
}.

(** What a handler does besides updating the state. *)
Inductive effect : Type :=
| Toast (destructive : bool) (title description : string)
| FetchGenerate (body : Generate.request_body)
| FetchStatus (taskId : value)
| SetTimeout (ms : Z)
| ClearFileInput.

Record client : Type := {
  session : Session;
  log : list effect
}.

(** The parsed JSON of a response of either route, as the page reads it;
    a key the body does not have reads [JUndefined] ([None] for [error],
    which the routes only ever send as a string). *)
Record data : Type := {
  data_error : option string;
  data_taskId : value;
  data_status : value;
  data_videoUrl : value
}.

(** What awaiting [fetch] and [response.json()] gives: an exception, or
    [response.ok] with the parsed body. *)
Definition fetch_outcome : Type := (exn + bool * data)%type.

(** A file handed over by the picker or by a drop; [result] is
    [reader.result] when the read ends ([None] for [null]). *)
Record File : Type := {
  size : Z;
  type : string;
  result : option string
}.

Definition idle : GenerateState :=
  {| isUploading := false; isGenerating := false; isPolling := false;
     progress := 0; status := "" |}.

(** *** State setters *)

Definition with_uploadedImage (v : option string) (s : Session) : Session :=
  {| uploadedImage := v; generatedVideoUrl := generatedVideoUrl s;
     taskId := taskId s; prompt := prompt s; quality := quality s;
     duration := duration s; fps := fps s; resolution := resolution s;
     generateState := generateState s |}.

Definition with_generatedVideoUrl (v : value) (s : Session) : Session :=
  {| uploadedImage := uploadedImage s; generatedVideoUrl := v;
     taskId := taskId s; prompt := prompt s; quality := quality s;
     duration := duration s; fps := fps s; resolution := resolution s;
     generateState := generateState s |}.

Definition with_taskId (v : value) (s : Session) : Session :=
  {| uploadedImage := uploadedImage s; generatedVideoUrl := generatedVideoUrl s;
     taskId := v; prompt := prompt s; quality := quality s;
     duration := duration s; fps := fps s; resolution := resolution s;
     generateState := generateState s |}.

(** [prev => f prev] applied to the generation state; a plain object is
    the constant function. *)
Definition with_generateState (f : GenerateState -> GenerateState) (s : Session) :
  Session :=
  {| uploadedImage := uploadedImage s; generatedVideoUrl := generatedVideoUrl s;
     taskId := taskId s; prompt := prompt s; quality := quality s;
     duration := duration s; fps := fps s; resolution := resolution s;
     generateState := f (generateState s) |}.

Definition update (f : Session -> Session) : M unit :=
  modify (fun c => {| session := f (session c); log := log c |}).

Definition setUploadedImage (v : option string) : M unit :=
  update (with_uploadedImage v).

Definition setGeneratedVideoUrl (v : value) : M unit :=
  update (with_generatedVideoUrl v).

Definition setTaskId (v : value) : M unit :=
  update (with_taskId v).

Definition setGenerateState (f : GenerateState -> GenerateState) : M unit :=
  update (with_generateState f).

Definition emit (e : effect) : M unit :=
  modify (fun c => {| session := session c; log := log c ++ [e] |}).

Definition toast (destructive : bool) (title description : string) : M unit :=
  emit (Toast destructive title description).

Definition getSession : M (St := client) Session :=
  fun c => (inr (session c), c).

(** *** Upload *)

Definition too_large (file : File) : bool := (size file >? 10 * 1024 * 1024)%Z.

(** [reader.onloadend] *)
Definition onloadend (file : File) : M unit :=
  setUploadedImage (result file) ;;;
  setGeneratedVideoUrl JNull ;;;
  setTaskId JNull ;;;
  setGenerateState (fun _ => idle) ;;;
  toast false "Image uploaded" "Your image is ready to be transformed into a video".

(** [event.target.files?.[0]] is the argument.  The state changes of an
    accepted file are those of [reader.onloadend], which runs once the
    read started here has ended. *)
Definition handleImageUpload (file : option File) : M unit :=
  match file with
  | Some file =>
      if too_large file then
        toast true "File too large" "Please upload an image smaller than 10MB"
      else if negb (String.prefix "image/" (type file)) then
        toast true "Invalid file type" "Please upload an image file (JPEG, PNG, WebP)"
      else onloadend file
  | None => ret tt
  end.

(** [e.dataTransfer.files[0]] is the argument. *)
Definition handleDrop (file : option File) : M unit :=
  match file with
  | Some file =>
      if String.prefix "image/" (type file) then
        if too_large file then
          toast true "File too large" "Please upload an image smaller than 10MB"
        else onloadend file
      else ret tt
  | None => ret tt
  end.

(** *** Reset *)

(** The file input is rendered, and [fileInputRef.current] set, only while
    no image is uploaded: the page renders the drop zone with the input
    under [!uploadedImage] and the preview with the reset button
    otherwise. *)
Definition file_input_mounted (s : Session) : bool :=
  match uploadedImage s with
  | Some image => negb (truthy (JStr image))
  | None => true
  end.

(** [resetUpload]: the input is cleared only [if (fileInputRef.current)],
    and the ref is the one of the render the handler was called from. *)
Definition resetUpload : M unit :=
  s <- getSession ;;
  setUploadedImage None ;;;
  setGeneratedVideoUrl JNull ;;;
  setTaskId JNull ;;;
  setGenerateState (fun _ => idle) ;;;
  if file_input_mounted s then emit ClearFileInput else ret tt.

(** *** Generate *)

Definition request_of (image : string) (s : Session) : Generate.request_body :=
  {| Generate.imageData := JStr image;
     Generate.prompt := JStr (prompt s);
     Generate.quality := JStr (quality_string (quality s));
     Generate.duration := JNum (duration_number (duration s));
     Generate.fps := JNum (fps_number (fps s));
     Generate.size := JStr (resolution_string (resolution s)) |}.

(** [data.error || fallback], as the message of a new [Error]. *)
Definition error_or (d : data) (fallback : string) : string :=
  match data_error d with
  | Some e => if truthy (JStr e) then e else fallback
  | None => fallback
  end.

(** [!uploadedImage] is false exactly for a non-empty string. *)
Definition image_of (s : Session) : option string :=
  match uploadedImage s with
  | Some image => if truthy (JStr image) then Some image else None
  | None => None
  end.

(** The [catch] block shared by [generateVideo] and [poll]. *)
Definition generation_failed (error : exn) : M unit :=
  setGenerateState (fun _ => idle) ;;;
  toast true "Generation failed" (message_or error "Failed to generate video").

(** [generateVideo], up to the call of [pollForResults]: it returns the task
    id the poll loop is started with, if it starts one.  [reply] is the
    outcome of the POST to the submission route. *)
Definition generateVideo (reply : fetch_outcome) : M (option value) :=
  s <- getSession ;;
  match image_of s with
  | None =>
      toast true "No image uploaded" "Please upload an image first" ;;;
      ret None
  | Some image =>
      setGenerateState (fun _ =>
        {| isUploading := true; isGenerating := true; isPolling := false;
           progress := 10; status := "Creating video generation task..." |}) ;;;
      try_catch
        (emit (FetchGenerate (request_of image s)) ;;;
         r <- lift reply ;;
         let '(ok, data) := r in
         if negb ok then
           throw (Error (error_or data "Failed to create video generation task"))
         else
           setTaskId (data_taskId data) ;;;
           setGenerateState (fun prev =>
             {| isUploading := false; isGenerating := isGenerating prev;
                isPolling := true; progress := 20;
                status := "Task created. Starting video generation..." |}) ;;;
           ret (Some (data_taskId data)))
        (fun error => generation_failed error ;;; ret None)
  end.

(** *** Poll *)

Definition maxPolls : nat := 200.
Definition pollInterval : Z := 3000.

(** [((pollCount * pollInterval) / 60000).toFixed(1)] *)
Definition elapsedMinutes (pollCount : nat) : string :=
  Num.toFixed1
    (PrimFloat.div (PrimFloat.mul (Num.of_nat pollCount) 3000) 60000).

(** [Math.min(20 + (pollCount / maxPolls) * 70, 90)] *)
Definition progress_at (pollCount : nat) : float :=
  Num.Math_min
    (PrimFloat.add 20
       (PrimFloat.mul (PrimFloat.div (Num.of_nat pollCount) (Num.of_nat maxPolls)) 70))
    90.

Definition generating_status (elapsed : string) : string :=
  "Generating your animated video... (" ++ elapsed ++ " minutes elapsed)".

Definition dquote : string := String (ascii_of_nat 34) EmptyString.

Definition timed_out (elapsed : string) : string :=
  "Video generation timed out after " ++ elapsed
  ++ " minutes. Please try again or use " ++ dquote ++ "speed" ++ dquote
  ++ " mode for faster generation.".

Definition succeeded : GenerateState :=
  {| isUploading := false; isGenerating := false; isPolling := false;
     progress := 100; status := "Video generated successfully!" |}.

(** [prev => ({ ...prev, progress, status: ... })] *)
Definition progress_update (pollCount : nat) (d : data) (prev : GenerateState) :
  GenerateState :=
  {| isUploading := isUploading prev; isGenerating := isGenerating prev;
     isPolling := isPolling prev;
     progress := progress_at pollCount;
     status :=
       if strict_eq (data_status d) (JStr "PROCESSING")
       then generating_status (elapsedMinutes pollCount)
       else "Almost done..." |}.

(** The rest of one run of [poll] once the status request has been
    answered with [reply], at the current value of [pollCount].  It returns
    the new value of [pollCount] when it has scheduled the next run, and
    [None] when the loop ends here. *)
Definition poll_resume (pollCount : nat) (reply : fetch_outcome) : M (option nat) :=
  try_catch
    (r <- lift reply ;;
     let '(ok, data) := r in
     if negb ok then
       throw (Error (error_or data "Failed to check status"))
     else
       setGenerateState (progress_update pollCount data) ;;;
       if strict_eq (data_status data) (JStr "SUCCESS") && truthy (data_videoUrl data) then
         setGeneratedVideoUrl (data_videoUrl data) ;;;
         setGenerateState (fun _ => succeeded) ;;;
         toast false "Success!" "Your animated video has been generated" ;;;
         ret None
       else if strict_eq (data_status data) (JStr "FAIL") then
         throw (Error "Video generation failed")
       else if (pollCount <? maxPolls)%nat then
         emit (SetTimeout pollInterval) ;;;
         ret (Some (S pollCount))
       else
         throw (Error (timed_out (elapsedMinutes pollCount))))
    (fun error => generation_failed error ;;; ret None).

(** One run of [poll]: the status request for the task id the loop was
    started with, then the rest. *)
Definition poll (taskId : value) (pollCount : nat) (reply : fetch_outcome) :
  M (option nat) :=
  emit (FetchStatus taskId) ;;;
  poll_resume pollCount reply.

(** [pollForResults(taskId)] with nothing else happening in between: the
    runs of [poll] chained by the timer, [replies n] being the answer to
    the status request made at [pollCount = n].  The result lists the
    sessions left by the runs that scheduled a further one, then the client
    as the last run left it. *)
Fixpoint poll_chain (fuel : nat) (taskId : value) (replies : nat -> fetch_outcome)
  (pollCount : nat) (c : client) : option (list Session * client) :=
  match fuel with
  | O => None
  | S fuel' =>
      match poll taskId pollCount (replies pollCount) c with
      | (inr (Some next), c') =>
          match poll_chain fuel' taskId replies next c' with
          | Some (seen, final) => Some (session c' :: seen, final)
          | None => None
          end
      | (_, c') => Some ([], c')
      end
  end.

Definition pollForResults (taskId : value) (replies : nat -> fetch_outcome)
  (c : client) : option (list Session * client) :=
  poll_chain (S maxPolls) taskId replies 0 c.

(** *** What the page reads from a response of the status route *)

(** A value after [JSON.stringify] and [JSON.parse]: a number that is not
    finite is written as [null]. *)
Definition through_json (v : value) : value :=
  match v with
  | JNum x =>
      if PrimFloat.is_nan x || PrimFloat.is_infinity x then JNull
      else if PrimFloat.eqb x 0 then JNum 0
      else v
  | _ => v
  end.

Definition data_of (b : json_body) : data :=
  match b with
  | ErrorBody e =>
      {| data_error := Some e; data_taskId := JUndefined;
         data_status := JUndefined; data_videoUrl := JUndefined |}
  | CreatedBody _ t st =>
      {| data_error := None; data_taskId := through_json t;
         data_status := through_json st; data_videoUrl := JUndefined |}
  | StatusBody t st v =>
      {| data_error := None; data_taskId := JStr t;
         data_status := through_json st;
         data_videoUrl := match v with Some u => through_json u | None => JUndefined end |}
  end.

(** [response.ok] *)
Definition ok_of (r : response) : bool := ((200 <=? code r) && (code r <=? 299))%Z.

Definition reply_of (r : response) : fetch_outcome := inr (ok_of r, data_of (body r)).

(** *** Vocabulary of the properties *)

(** The answer is a success with a video URL. *)
Definition resolves_with_video (reply : fetch_outcome) : Prop :=
  exists d, reply = inr (true, d)
            /\ strict_eq (data_status d) (JStr "SUCCESS") = true
            /\ truthy (data_videoUrl d) = true.

(** The answer is an OK response that is neither a success with a video
    URL nor a FAIL. *)
Definition keeps_polling (reply : fetch_outcome) : Prop :=
  exists d, reply = inr (true, d)
            /\ strict_eq (data_status d) (JStr "SUCCESS") && truthy (data_videoUrl d) = false
            /\ strict_eq (data_status d) (JStr "FAIL") = false.

Fixpoint nondecreasing (l : list float) : Prop :=
  match l with
  | a :: (b :: _) as rest => Num.le a b /\ nondecreasing rest
  | _ => True
  end.

Definition progress_of (s : Session) : float := progress (generateState s).

(** [n] runs of [poll] that each schedule the next one. *)
Fixpoint rounds (taskId : value) (n : nat) : list effect :=
  match n with
  | O => []
  | S n' => FetchStatus taskId :: SetTimeout 3000 :: rounds taskId n'
  end.

(** *** Sample data *)

Definition sample_image : string := "data:image/png;base64,AAAA".

Definition with_image : client :=
  {| session :=
       {| uploadedImage := Some sample_image; generatedVideoUrl := JNull;
          taskId := JNull;
          prompt := "Make this image come alive with smooth, loopable motion";
          quality := Speed;
          duration := d5; fps := f30; resolution := r1024x1024;
          generateState := idle |};
     log := [] |}.

Definition answer (st : value) (video : value) : fetch_outcome :=
  inr (true, {| data_error := None; data_taskId := JStr "task-1";
                data_status := st; data_videoUrl := video |}).

Definition created : fetch_outcome := answer (JStr "PROCESSING") JUndefined.
Definition processing : fetch_outcome := answer (JStr "PROCESSING") JUndefined.
Definition finished : fetch_outcome :=
  answer (JStr "SUCCESS") (JStr "https://cdn.example/video.mp4").

(** The client once [generateVideo] has started the poll loop. *)
Definition polling : client := snd (generateVideo created with_image).


(** A small file that is not an image. *)
Definition pdf : File :=
  {| size := 2048; type := "application/pdf";
     result := Some "data:application/pdf;base64,AAAA" |}.

(** *** Counting the effects of a run *)

Definition is_status_fetch (e : effect) : bool :=
  match e with FetchStatus _ => true | _ => false end.

Definition is_timer (e : effect) : bool :=
  match e with SetTimeout _ => true | _ => false end.

(** *** Download *)

(** The anchor element [handleDownload] builds and clicks. *)
Record link : Type := {
  href : value;
  download : string
}.

(** [handleDownload], with [now] the value of [Date.now()]: it returns the
    link it clicked, if it clicked one. *)
Definition handleDownload (now : Z) : M (option link) :=
  s <- getSession ;;
  if truthy (generatedVideoUrl s) then
    toast false "Download started" "Your video is being downloaded" ;;;
    ret (Some {| href := generatedVideoUrl s;
                 download := "animated-video-" ++ Num.decimal now ++ ".mp4" |})
  else ret None.

(** *** The two halves of [generateVideo] around its [await] *)

(** Up to the request: [Some image] when the request has been sent. *)
Definition generateVideo_begin : M (option string) :=
  s <- getSession ;;
  match image_of s with
  | None =>
      toast true "No image uploaded" "Please upload an image first" ;;;
      ret None
  | Some image =>
      setGenerateState (fun _ =>
        {| isUploading := true; isGenerating := true; isPolling := false;
           progress := 10; status := "Creating video generation task..." |}) ;;;
      emit (FetchGenerate (request_of image s)) ;;;
      ret (Some image)
  end.

(** From the answer on, on the state as it is when the answer arrives. *)
Definition generateVideo_resume (reply : fetch_outcome) : M (option value) :=
  try_catch
    (r <- lift reply ;;
     let '(ok, data) := r in
     if negb ok then
       throw (Error (error_or data "Failed to create video generation task"))
     else
       setTaskId (data_taskId data) ;;;
       setGenerateState (fun prev =>
         {| isUploading := false; isGenerating := isGenerating prev;
            isPolling := true; progress := 20;
            status := "Task created. Starting video generation..." |}) ;;;
       ret (Some (data_taskId data)))
    (fun error => generation_failed error ;;; ret None).

(** The generation parameters of two sessions are the same. *)
Definition same_parameters (s s' : Session) : Prop :=
  prompt s' = prompt s /\ quality s' = quality s /\ duration s' = duration s
  /\ fps s' = fps s /\ resolution s' = resolution s.

(** What [reader.onloadend] leaves of a session. *)
Definition uploaded (file : File) (s : Session) : Session :=
  {| uploadedImage := result file; generatedVideoUrl := JNull; taskId := JNull;
     prompt := prompt s; quality := quality s; duration := duration s;
     fps := fps s; resolution := resolution s; generateState := idle |}.

(** *** Reading a log *)

(** The task ids of the status requests in a log. *)
Fixpoint status_fetches (l : list effect) : list value :=
  match l with
  | [] => []
  | FetchStatus t :: l' => t :: status_fetches l'
  | _ :: l' => status_fetches l'
  end.

(** The delays of the timers in a log. *)
Fixpoint timers (l : list effect) : list Z :=
  match l with
  | [] => []
  | SetTimeout ms :: l' => ms :: timers l'
  | _ :: l' => timers l'
  end.

(** The toasts in a log. *)
Fixpoint toasts (l : list effect) : list (bool * string * string) :=
  match l with
  | [] => []
  | Toast d t m :: l' => (d, t, m) :: toasts l'
  | _ :: l' => toasts l'
  end.

End Page.

(* ================================================================== *)
(** * Properties *)

(** ** Shared facts about the route handlers *)

Module ServerFacts.
Local Open Scope list_scope.

Lemma prefixed_nonempty (p s : string) :
  p <> "" -> String.prefix p s = true -> truthy (JStr s) = true.
Proof.
  intros Hp H. destruct s as [|a s]; [|reflexivity].
  destruct p; [congruence | discriminate H].
Qed.

Lemma nonempty_truthy (s : string) : s <> "" -> truthy (JStr s) = true.
Proof.
  intros H. destruct s; [congruence | reflexivity].
Qed.

(** With the client at hand, [getZAIInstance] returns it, caches it and
    logs a creation only if there was none cached. *)
Lemma getZAIInstance_available (P : behaviour) (w : world) :
  client_available P w ->
  exists h,
    getZAIInstance P w =
    (inr h, {| zaiInstance := Some h; calls := calls w ++ client_calls w |}).
Proof.
  intros H. destruct w as [inst cs]. unfold client_calls. simpl.
  destruct inst as [h|].
  - exists h. cbn. now rewrite app_nil_r.
  - destruct H as [H | [h Hh]]; [now elim H|].
    exists h. cbv [getZAIInstance get_instance sdk set_instance modify bind ret].
    simpl. now rewrite Hh.
Qed.

Lemma submissions_app (l1 l2 : list call) :
  Generate.submissions (l1 ++ l2) = Generate.submissions l1 ++ Generate.submissions l2.
Proof.
  induction l1 as [|c l1 IH]; [reflexivity|].
  destruct c; simpl; now rewrite IH.
Qed.

Lemma queries_app (l1 l2 : list call) :
  Status.queries (l1 ++ l2) = Status.queries l1 ++ Status.queries l2.
Proof.
  induction l1 as [|c l1 IH]; [reflexivity|].
  destruct c; simpl; now rewrite IH.
Qed.

Lemma submissions_client_calls (w : world) :
  Generate.submissions (client_calls w) = [].
Proof. unfold client_calls. now destruct (zaiInstance w). Qed.

Lemma queries_client_calls (w : world) : Status.queries (client_calls w) = [].
Proof. unfold client_calls. now destruct (zaiInstance w). Qed.

End ServerFacts.

(** ** The submission route *)

Module GenerateFacts.
Import Generate ServerFacts.
Local Open Scope list_scope.

(** An accepted request makes exactly one submission, with [params_of]. *)
Lemma POST_accepted (P : behaviour) (w : world) (b : request_body) :
  image_data_url (imageData b) ->
  client_available P w ->
  submissions (calls (snd (POST P (inr (Generate.Body b)) w))) =
  submissions (calls w) ++ [params_of b].
Proof.
  intros [s [Hs Hpre]] Hc.
  destruct (getZAIInstance_available P w Hc) as [h Hh].
  assert (Ht : truthy (JStr s) = true)
    by (apply (prefixed_nonempty "data:image/"); [discriminate | exact Hpre]).
  unfold POST, destructure, try_catch, bind, lift, startsWith.
  rewrite Hs, Ht. cbn [negb]. rewrite Hpre. cbn [negb].
  rewrite Hh. unfold sdk. cbn [zaiInstance calls].
  destruct (generations_create P (params_of b)) as [e|task]; cbn;
    rewrite !submissions_app, submissions_client_calls, app_nil_r; reflexivity.
Qed.

(** A parsed body that is not [null], with [imageData] absent or a string
    without the prefix: 400, and the module state is left as it was. *)
Lemma POST_unprefixed (P : behaviour) (w : world) (b : request_body) :
  absent_or_unprefixed (imageData b) ->
  exists msg,
    (msg = "Image data is required" \/ msg = invalid_format)
    /\ POST P (inr (Body b)) w = (inr {| code := 400; body := ErrorBody msg |}, w).
Proof.
  intros [H | [s [H Hpre]]];
    unfold POST, destructure, try_catch, bind, lift, ret, json_status; rewrite H.
  - eexists; split; [left|]; reflexivity.
  - destruct (truthy (JStr s)); cbn [negb startsWith].
    + rewrite Hpre. eexists; split; [right|]; reflexivity.
    + eexists; split; [left|]; reflexivity.
Qed.

(** A body that is not JSON, or is [null]: the [catch] block answers 500
    with the message of what was thrown, and the module state is left as it
    was. *)
Lemma POST_unreadable (P : behaviour) (w : world) (req : exn + parsed_body) (e : exn) :
  read_body req = inl e ->
  POST P req w =
  (inr {| code := 500;
          body := ErrorBody (message_or e "Failed to create video generation task") |},
   w).
Proof.
  destruct req as [e' | [|b]]; cbn; intros H; try discriminate H;
    injection H as <-; reflexivity.
Qed.

(** C6, as the handler has it: a request whose body parses to a value other
    than [null] and whose [imageData] is absent (or falsy), or is a string
    without the image data-URL prefix, is answered 400 with an error object.
    A present [imageData] that is not a string, a body that is [null] and a
    body that is not JSON are answered 500 with an error object instead.
    In all these cases the module state is left as it was: no client is
    created and no generation is submitted. *)
Theorem invalid_image_rejected (P : behaviour) (w : world) (b : request_body) :
  (absent_or_unprefixed (imageData b) ->
   exists msg,
     POST P (inr (Body b)) w = (inr {| code := 400; body := ErrorBody msg |}, w))
  /\ (truthy (imageData b) = true -> (forall s, imageData b <> JStr s) ->
      POST P (inr (Body b)) w =
      (inr {| code := 500; body := ErrorBody "imageData.startsWith is not a function" |},
       w))
  /\ POST P (inr NullBody) w =
     (inr {| code := 500;
             body := ErrorBody
                       "Cannot destructure property 'imageData' of 'body' as it is null." |},
      w)
  /\ (forall e,
        POST P (inl e) w =
        (inr {| code := 500;
                body := ErrorBody (message_or e "Failed to create video generation task") |},
         w)).
Proof.
  split; [|split; [|split]].
  - intros H. destruct (POST_unprefixed P w b H) as [msg [_ Hm]]. now exists msg.
  - intros Ht Hs. unfold POST, destructure, try_catch, bind, lift. rewrite Ht. cbn [negb].
    destruct (imageData b); try reflexivity. now elim (Hs s).
  - reflexivity.
  - reflexivity.
Qed.

Lemma invalid_image_rejected_witness :
  exists msg,
    POST obliging (inr (Body (only_image (JStr "hello")))) fresh
    = (inr {| code := 400; body := ErrorBody msg |}, fresh).
Proof.
  apply (proj1 (invalid_image_rejected obliging fresh (only_image (JStr "hello")))).
  right. exists "hello". split; reflexivity.
Defined.

(** C6 as it is worded fails on an [imageData] that is present and is not a
    string, here the number 123: the route answers 500, not 400. *)
Lemma number_as_image_is_answered_500 :
  fst (POST obliging (inr (Body (only_image (JNum 123)))) fresh)
  = inr {| code := 500; body := ErrorBody "imageData.startsWith is not a function" |}
  /\ forall resp,
       fst (POST obliging (inr (Body (only_image (JNum 123)))) fresh) = inr resp ->
       code resp <> 400%Z.
Proof.
  split; [reflexivity|]. intros resp H. injection H as <-. discriminate.
Qed.

(** Outside the declared interface, where [imageData] is a string: a truthy
    value that is not a string passes the first test, [startsWith] throws,
    and the [catch] block answers 500, still without any call to the SDK. *)
Lemma POST_image_not_a_string (P : behaviour) (w : world) (b : request_body) :
  truthy (imageData b) = true ->
  (forall s, imageData b <> JStr s) ->
  POST P (inr (Generate.Body b)) w =
    (inr {| code := 500; body := ErrorBody "imageData.startsWith is not a function" |}, w).
Proof.
  intros Ht Hs. unfold POST, destructure, try_catch, bind, lift. rewrite Ht. cbn [negb].
  destruct (imageData b); try reflexivity. now elim (Hs s).
Qed.

(** C5: a request that carries only a valid [imageData] reaches the
    provider with the default prompt, quality "speed", duration 5, fps 30
    and size "1024x1024"; a request that supplies duration 10, fps 60 and
    size "1920x1080" reaches it with exactly those three values. *)
Theorem submission_defaults_and_passthrough (P : behaviour) (w : world) (img : value) :
  image_data_url img ->
  client_available P w ->
  submissions (calls (snd (POST P (inr (Generate.Body (only_image img))) w))) =
    submissions (calls w) ++
    [{| Provider.image_url := img;
        Provider.prompt := JStr "Make this image come alive with smooth, loopable motion";
        Provider.quality := JStr "speed";
        Provider.duration := JNum 5;
        Provider.fps := JNum 30;
        Provider.size := JStr "1024x1024" |}]
  /\
  forall b,
    imageData b = img ->
    duration b = JNum 10 -> fps b = JNum 60 -> size b = JStr "1920x1080" ->
    submissions (calls (snd (POST P (inr (Generate.Body b)) w))) =
      submissions (calls w) ++
      [{| Provider.image_url := img;
          Provider.prompt := prompt b ||| JStr default_prompt;
          Provider.quality := quality b ||| JStr "speed";
          Provider.duration := JNum 10;
          Provider.fps := JNum 60;
          Provider.size := JStr "1920x1080" |}].
Proof.
  intros Himg Hc. split.
  - rewrite POST_accepted by assumption. reflexivity.
  - intros b Hb Hd Hf Hs.
    rewrite POST_accepted by (rewrite ?Hb; assumption).
    unfold params_of. rewrite Hb, Hd, Hf, Hs. reflexivity.
Qed.

(** C9: a supplied field that is falsy is replaced by its default: an empty
    prompt, a duration of 0, an fps of 0 and an empty size all reach the
    provider as the defaults, and so does any other falsy value. *)
Theorem falsy_fields_defaulted (P : behaviour) (w : world) (b : request_body) :
  image_data_url (imageData b) ->
  client_available P w ->
  exists p,
    submissions (calls (snd (POST P (inr (Generate.Body b)) w))) = submissions (calls w) ++ [p]
    /\ (prompt b = JStr "" ->
        Provider.prompt p = JStr "Make this image come alive with smooth, loopable motion")
    /\ (duration b = JNum 0 -> Provider.duration p = JNum 5)
    /\ (fps b = JNum 0 -> Provider.fps p = JNum 30)
    /\ (size b = JStr "" -> Provider.size p = JStr "1024x1024")
    /\ (truthy (prompt b) = false -> Provider.prompt p = JStr default_prompt)
    /\ (truthy (quality b) = false -> Provider.quality p = JStr "speed")
    /\ (truthy (duration b) = false -> Provider.duration p = JNum 5)
    /\ (truthy (fps b) = false -> Provider.fps p = JNum 30)
    /\ (truthy (size b) = false -> Provider.size p = JStr "1024x1024").
Proof.
  intros Himg Hc. exists (params_of b).
  split; [now apply POST_accepted|].
  unfold params_of, or_else; cbn [Provider.prompt Provider.quality Provider.duration
                                   Provider.fps Provider.size].
  repeat split; intros H; rewrite H; reflexivity.
Qed.

Lemma submission_defaults_and_passthrough_witness :
  image_data_url (JStr "data:image/png;base64,AAAA") /\
  client_available obliging fresh /\
  submissions
    (calls (snd (POST obliging (inr (Generate.Body (only_image (JStr "data:image/png;base64,AAAA")))) fresh)))
  = [{| Provider.image_url := JStr "data:image/png;base64,AAAA";
        Provider.prompt := JStr "Make this image come alive with smooth, loopable motion";
        Provider.quality := JStr "speed";
        Provider.duration := JNum 5;
        Provider.fps := JNum 30;
        Provider.size := JStr "1024x1024" |}].
Proof.
  assert (Hi : image_data_url (JStr "data:image/png;base64,AAAA"))
    by (eexists; split; reflexivity).
  assert (Hc : client_available obliging fresh)
    by (right; exists 1%nat; reflexivity).
  split; [exact Hi | split; [exact Hc |]].
  exact (proj1 (submission_defaults_and_passthrough obliging fresh _ Hi Hc)).
Defined.

Lemma falsy_fields_defaulted_witness :
  exists p,
    submissions
      (calls (snd (POST obliging
                     (inr (Generate.Body {| imageData := JStr "data:image/png;base64,AAAA";
                             prompt := JStr ""; quality := JStr "quality";
                             duration := JNum 0; fps := JNum 0; size := JStr "" |}))
                     fresh))) = [p]
    /\ Provider.prompt p = JStr "Make this image come alive with smooth, loopable motion"
    /\ Provider.quality p = JStr "quality"
    /\ Provider.duration p = JNum 5
    /\ Provider.fps p = JNum 30
    /\ Provider.size p = JStr "1024x1024".
Proof.
  destruct (falsy_fields_defaulted obliging fresh
              {| imageData := JStr "data:image/png;base64,AAAA";
                 prompt := JStr ""; quality := JStr "quality";
                 duration := JNum 0; fps := JNum 0; size := JStr "" |})
    as [p [Hp [H1 [H2 [H3 [H4 _]]]]]].
  - eexists; split; reflexivity.
  - right; exists 1%nat; reflexivity.
  - exists p. split; [exact Hp|].
    split; [now apply H1|].
    split; [|split; [now apply H2 | split; [now apply H3 | now apply H4]]].
    cbn in Hp. now injection Hp as <-.
Defined.

End GenerateFacts.

(** ** The status route *)

Module StatusFacts.
Import Status ServerFacts.
Local Open Scope list_scope.

(** Rewrites with the known truth values until the conditionals are gone. *)
Ltac settle :=
  cbn iota;
  repeat match goal with
         | H : truthy ?x = _ |- context [truthy ?x] => rewrite H; cbn iota
         end.

(** The chain of [||] picks the first truthy field. *)
Lemma resolve_first_non_empty (r : query_result) :
  truthy (resolve_video_url r) = true ->
  first_non_empty (url_fields r) = Some (resolve_video_url r).
Proof.
  unfold resolve_video_url, first_non_empty, url_fields, or_else. cbn [find].
  destruct (truthy (first_entry_url r)) eqn:E1; settle; [reflexivity|].
  destruct (truthy (video_url r)) eqn:E2; settle; [reflexivity|].
  destruct (truthy (url r)) eqn:E3; settle; [reflexivity|].
  intros E4. now rewrite E4.
Qed.

Lemma resolve_none (r : query_result) :
  truthy (resolve_video_url r) = false ->
  first_non_empty (url_fields r) = None.
Proof.
  unfold resolve_video_url, first_non_empty, url_fields, or_else. cbn [find].
  destruct (truthy (first_entry_url r)) eqn:E1; settle; [congruence|].
  destruct (truthy (video_url r)) eqn:E2; settle; [congruence|].
  destruct (truthy (url r)) eqn:E3; settle; [congruence|].
  intros E4. now rewrite E4.
Qed.

(** The body the handler builds carries the [videoUrl] of the contract. *)
Lemma response_of_spec (t : string) (r : query_result) :
  response_of t r = StatusBody t (task_status r) (spec_videoUrl r).
Proof.
  unfold response_of, spec_videoUrl.
  destruct (strict_eq (task_status r) (JStr "SUCCESS")); [|reflexivity].
  cbv zeta. destruct (truthy (resolve_video_url r)) eqn:E.
  - now rewrite resolve_first_non_empty.
  - now rewrite resolve_none.
Qed.

(** A request with a non-empty task id, the client at hand: one query is
    logged, and its result decides the response. *)
Lemma GET_run (P : behaviour) (w : world) (t : string) :
  t <> "" ->
  client_available P w ->
  exists h,
    GET P (Some t) w =
    (match result_query P t with
     | inr r => inr (json (response_of t r))
     | inl e =>
         inr (json_status
                (ErrorBody (message_or e "Failed to query video generation status")) 500)
     end,
     {| zaiInstance := Some h;
        calls := (calls w ++ client_calls w) ++ [ResultQuery t] |}).
Proof.
  intros Ht Hc.
  destruct (getZAIInstance_available P w Hc) as [h Hh]. exists h.
  unfold GET, try_catch, bind. cbn [param_value].
  rewrite (nonempty_truthy t Ht). cbn [negb]. rewrite Hh.
  unfold sdk, ret. cbn [zaiInstance calls].
  destruct (result_query P t); reflexivity.
Qed.

(** C2: for a SUCCESS result the response carries as [videoUrl] the first
    non-empty value among [video_result[0].url], [video_url], [url] and
    [video], in that order, where [video_result[0].url] is the [url] of the
    first entry of the list and counts as empty when the list is missing,
    is empty or starts with a null entry; the list entry wins whenever it is
    non-empty; a URL carried by one field alone is returned whichever field
    that is; and the key is present only for a SUCCESS with a non-empty
    field. *)
Theorem video_url_resolution (P : behaviour) (w : world) (t : string) (r : query_result) :
  t <> "" ->
  client_available P w ->
  result_query P t = inr r ->
  fst (GET P (Some t) w) =
    inr {| code := 200; body := StatusBody t (task_status r) (spec_videoUrl r) |}
  /\ (strict_eq (task_status r) (JStr "SUCCESS") = true ->
      spec_videoUrl r = find truthy [first_entry_url r; video_url r; url r; video r])
  /\ (strict_eq (task_status r) (JStr "SUCCESS") = true ->
      truthy (first_entry_url r) = true ->
      spec_videoUrl r = Some (first_entry_url r))
  /\ (forall (u : value) (i : nat),
        strict_eq (task_status r) (JStr "SUCCESS") = true ->
        truthy u = true ->
        nth_error (url_fields r) i = Some u ->
        (forall j v, j <> i -> nth_error (url_fields r) j = Some v -> truthy v = false) ->
        spec_videoUrl r = Some u)
  /\ (forall u, spec_videoUrl r = Some u ->
        strict_eq (task_status r) (JStr "SUCCESS") = true
        /\ In u (url_fields r) /\ truthy u = true)
  /\ (forall entry rest,
        video_result r = Some (Some entry :: rest) ->
        strict_eq (task_status r) (JStr "SUCCESS") = true ->
        fst (GET P (Some t) w) =
        inr {| code := 200;
               body := StatusBody t (task_status r)
                         (find truthy [entry; video_url r; url r; video r]) |})
  /\ (forall entry rest,
        video_result r = Some (Some entry :: rest) ->
        strict_eq (task_status r) (JStr "SUCCESS") = true ->
        truthy entry = true ->
        fst (GET P (Some t) w) =
        inr {| code := 200; body := StatusBody t (task_status r) (Some entry) |})
  /\ (video_result r = None \/ video_result r = Some []
      \/ (exists rest, video_result r = Some (None :: rest)) ->
      strict_eq (task_status r) (JStr "SUCCESS") = true ->
      fst (GET P (Some t) w) =
      inr {| code := 200;
             body := StatusBody t (task_status r)
                       (find truthy [video_url r; url r; video r]) |})
  /\ (strict_eq (task_status r) (JStr "SUCCESS") = false ->
      fst (GET P (Some t) w) =
      inr {| code := 200; body := StatusBody t (task_status r) None |}).
Proof.
  intros Ht Hc Hr.
  destruct (GET_run P w t Ht Hc) as [h Hrun]. rewrite Hrun, Hr. cbn [fst].
  rewrite response_of_spec.
  split; [reflexivity|].
  unfold spec_videoUrl, first_non_empty.
  split; [intros ->; reflexivity|].
  split; [intros -> H1; unfold url_fields; cbn [find]; now rewrite H1|].
  split; [|split; [|split; [|split; [|split]]]].
  - intros u i -> Hu Hi Hothers.
    assert (H0 : forall j v, j <> i -> nth_error (url_fields r) j = Some v ->
                             truthy v = false) by exact Hothers.
    unfold url_fields in *.
    destruct i as [|[|[|[|i]]]]; cbn [nth_error] in Hi.
    + injection Hi as ->. cbn [find]. now rewrite Hu.
    + injection Hi as ->. cbn [find].
      rewrite (H0 0%nat _ ltac:(discriminate) eq_refl). now rewrite Hu.
    + injection Hi as ->. cbn [find].
      rewrite (H0 0%nat _ ltac:(discriminate) eq_refl).
      rewrite (H0 1%nat _ ltac:(discriminate) eq_refl). now rewrite Hu.
    + injection Hi as ->. cbn [find].
      rewrite (H0 0%nat _ ltac:(discriminate) eq_refl).
      rewrite (H0 1%nat _ ltac:(discriminate) eq_refl).
      rewrite (H0 2%nat _ ltac:(discriminate) eq_refl). now rewrite Hu.
    + destruct i; discriminate Hi.
  - intros u. destruct (strict_eq (task_status r) (JStr "SUCCESS")); [|discriminate].
    intros H. apply find_some in H. tauto.
  - intros entry rest Hv ->. unfold url_fields, first_entry_url. now rewrite Hv.
  - intros entry rest Hv -> He. unfold url_fields, first_entry_url. rewrite Hv.
    cbn [find]. now rewrite He.
  - intros Hv ->. unfold url_fields, first_entry_url.
    destruct Hv as [Hv | [Hv | [rest Hv]]]; rewrite Hv; reflexivity.
  - intros ->. reflexivity.
Qed.

Lemma video_url_resolution_witness :
  fst (GET (answering two_entries) (Some "task-1") fresh)
  = inr {| code := 200;
           body := StatusBody "task-1" (JStr "SUCCESS")
                              (Some (JStr "https://a.example/v.mp4")) |}.
Proof.
  refine (proj1 (proj2 (proj2 (proj2 (proj2 (proj2 (proj2
            (video_url_resolution (answering two_entries) fresh "task-1" two_entries
               _ _ eq_refl)))))))
            (JStr "https://a.example/v.mp4") [Some (JStr "https://z.example/v.mp4")]
            eq_refl eq_refl eq_refl).
  - discriminate.
  - right. exists 1%nat. reflexivity.
Defined.

(** C7, as the handler has it: a request whose [taskId] parameter is absent
    or empty is answered 400 with an error object and leaves the module
    state as it was, so nothing is forwarded to the provider; a request
    with a non-empty [taskId], the client at hand, makes exactly one query,
    for that task id. *)
Theorem status_query_count (P : behaviour) (w : world) (taskId : option string) :
  (taskId = None \/ taskId = Some "" ->
   GET P taskId w =
     (inr {| code := 400; body := ErrorBody "Task ID is required" |}, w))
  /\
  (forall t, taskId = Some t -> t <> "" -> client_available P w ->
     queries (calls (snd (GET P taskId w))) = queries (calls w) ++ [t]).
Proof.
  split.
  - intros [-> | ->]; reflexivity.
  - intros t -> Ht Hc.
    destruct (GET_run P w t Ht Hc) as [h ->]. cbn [snd calls].
    rewrite !queries_app, queries_client_calls, app_nil_r. reflexivity.
Qed.

Lemma status_query_count_witness :
  client_available obliging fresh /\
  queries (calls (snd (GET obliging (Some "task-1") fresh))) = ["task-1"].
Proof.
  assert (Hc : client_available obliging fresh)
    by (right; exists 1%nat; reflexivity).
  split; [exact Hc|].
  refine (proj2 (status_query_count obliging fresh (Some "task-1")) _ eq_refl _ Hc).
  discriminate.
Defined.

(** C7 as it is worded fails on a [taskId] parameter that is present with
    an empty value: the request is answered 400 and no query is made. *)
Lemma present_empty_task_id_makes_no_query :
  GET obliging (Some "") fresh =
    (inr {| code := 400; body := ErrorBody "Task ID is required" |}, fresh)
  /\ List.length (queries (calls (snd (GET obliging (Some "") fresh)))) <> 1%nat.
Proof.
  split; [reflexivity | discriminate].
Qed.

End StatusFacts.

(** ** The page component *)

Module PageFacts.
Import Page.
Local Open Scope list_scope.

(** *** The progress estimate, on the doubles the page computes *)

Lemma progress_at_steps :
  forallb (fun k => PrimFloat.leb (progress_at k) (progress_at (S k)))
          (seq 0 maxPolls) = true.
Proof. vm_compute. reflexivity. Qed.

Lemma progress_at_range :
  forallb (fun k => PrimFloat.leb 20 (progress_at k) && PrimFloat.leb (progress_at k) 90)
          (seq 0 (S maxPolls)) = true.
Proof. vm_compute. reflexivity. Qed.

Lemma progress_at_mono (k : nat) :
  (k < maxPolls)%nat -> Num.le (progress_at k) (progress_at (S k)).
Proof.
  intros H. pose proof progress_at_steps as A.
  rewrite forallb_forall in A. apply A, in_seq. lia.
Qed.

Lemma progress_at_bounds (k : nat) :
  (k <= maxPolls)%nat -> Num.le 20 (progress_at k) /\ Num.le (progress_at k) 90.
Proof.
  intros H. pose proof progress_at_range as A.
  rewrite forallb_forall in A.
  specialize (A k). rewrite andb_true_iff in A. apply A, in_seq. lia.
Qed.

Lemma elapsed_at_ceiling : elapsedMinutes maxPolls = "10.0".
Proof. vm_compute. reflexivity. Qed.

(** *** One run of [poll] *)

Ltac run_handler :=
  unfold poll, poll_resume, generation_failed, toast, emit, setGenerateState,
    setGeneratedVideoUrl, setTaskId, setUploadedImage, update, modify, try_catch, bind,
    lift, throw, ret.

(** An answer that keeps the loop going, below the ceiling: the progress
    and the status message are updated and the next run is scheduled. *)
Lemma poll_resume_continues (pollCount : nat) (d : data) (c : client) :
  strict_eq (data_status d) (JStr "SUCCESS") && truthy (data_videoUrl d) = false ->
  strict_eq (data_status d) (JStr "FAIL") = false ->
  (pollCount < maxPolls)%nat ->
  poll_resume pollCount (inr (true, d)) c =
  (inr (Some (S pollCount)),
   {| session := with_generateState (progress_update pollCount d) (session c);
      log := log c ++ [SetTimeout 3000] |}).
Proof.
  intros Hs Hf Hlt. apply Nat.ltb_lt in Hlt.
  run_handler. cbn [negb]. rewrite Hs, Hf, Hlt. reflexivity.
Qed.

(** The same answer at the ceiling: the loop ends with the time-out. *)
Lemma poll_resume_times_out (pollCount : nat) (d : data) (c : client) :
  strict_eq (data_status d) (JStr "SUCCESS") && truthy (data_videoUrl d) = false ->
  strict_eq (data_status d) (JStr "FAIL") = false ->
  (maxPolls <= pollCount)%nat ->
  poll_resume pollCount (inr (true, d)) c =
  (inr None,
   {| session := with_generateState (fun _ => idle) (session c);
      log := log c ++ [Toast true "Generation failed"
                             (timed_out (elapsedMinutes pollCount))] |}).
Proof.
  intros Hs Hf Hge. apply Nat.ltb_ge in Hge.
  run_handler. cbn [negb]. rewrite Hs, Hf, Hge. reflexivity.
Qed.

(** A success with a video URL: the URL is stored and the loop ends. *)
Lemma poll_resume_succeeds (pollCount : nat) (d : data) (c : client) :
  strict_eq (data_status d) (JStr "SUCCESS") = true ->
  truthy (data_videoUrl d) = true ->
  poll_resume pollCount (inr (true, d)) c =
  (inr None,
   {| session := with_generateState (fun _ => succeeded)
                   (with_generatedVideoUrl (data_videoUrl d) (session c));
      log := log c ++ [Toast false "Success!"
                             "Your animated video has been generated"] |}).
Proof.
  intros Hs Hu. run_handler. cbn [negb]. rewrite Hs, Hu. reflexivity.
Qed.

(** Anything else ends the loop in the [catch] block: the generation state
    is reset and a failure is shown. *)
Lemma poll_resume_fails (pollCount : nat) (reply : fetch_outcome) (c : client) :
  ~ resolves_with_video reply ->
  ~ (keeps_polling reply /\ (pollCount < maxPolls)%nat) ->
  exists msg,
    poll_resume pollCount reply c =
    (inr None,
     {| session := with_generateState (fun _ => idle) (session c);
        log := log c ++ [Toast true "Generation failed" msg] |}).
Proof.
  intros Hnr Hnk. destruct reply as [e | [[|] d]].
  - eexists. reflexivity.
  - destruct (strict_eq (data_status d) (JStr "SUCCESS") && truthy (data_videoUrl d)) eqn:Hs.
    + apply andb_true_iff in Hs. elim Hnr. exists d. tauto.
    + destruct (strict_eq (data_status d) (JStr "FAIL")) eqn:Hf.
      * eexists. run_handler. cbn [negb]. rewrite Hs, Hf. reflexivity.
      * destruct (Nat.lt_ge_cases pollCount maxPolls) as [Hlt | Hge].
        -- elim Hnk. split; [exists d; auto | exact Hlt].
        -- eexists. now apply poll_resume_times_out.
  - eexists. reflexivity.
Qed.

Lemma resolves_not_keeps (reply : fetch_outcome) :
  resolves_with_video reply -> ~ keeps_polling reply.
Proof.
  intros [d [-> [Hs Hu]]] [d' [H [H' _]]]. injection H as <-.
  rewrite Hs, Hu in H'. discriminate.
Qed.

Lemma reply_cases (pollCount : nat) (reply : fetch_outcome) :
  resolves_with_video reply
  \/ (keeps_polling reply /\ (pollCount < maxPolls)%nat)
  \/ (~ resolves_with_video reply
      /\ ~ (keeps_polling reply /\ (pollCount < maxPolls)%nat)).
Proof.
  destruct reply as [e | [[|] d]].
  - right; right. split; [intros [d [H _]] | intros [[d [H _]] _]]; discriminate H.
  - destruct (strict_eq (data_status d) (JStr "SUCCESS") && truthy (data_videoUrl d)) eqn:Hs.
    + left. apply andb_true_iff in Hs. exists d. tauto.
    + assert (Hn : ~ resolves_with_video (inr (true, d))).
      { intros [d' [H [H1 H2]]]. injection H as <-. rewrite H1, H2 in Hs. discriminate. }
      destruct (strict_eq (data_status d) (JStr "FAIL")) eqn:Hf.
      * right; right. split; [exact Hn|].
        intros [[d' [H [_ H']]] _]. injection H as <-. congruence.
      * destruct (Nat.lt_ge_cases pollCount maxPolls) as [Hlt | Hge].
        -- right; left. split; [exists d; auto | exact Hlt].
        -- right; right. split; [exact Hn | lia].
  - right; right. split; [intros [d' [H _]] | intros [[d' [H _]] _]]; discriminate H.
Qed.

Lemma poll_unfold (tid : value) (pollCount : nat) (reply : fetch_outcome) (c : client) :
  poll tid pollCount reply c =
  poll_resume pollCount reply
    {| session := session c; log := log c ++ [FetchStatus tid] |}.
Proof. reflexivity. Qed.

(** *** The chain of runs *)

(** From any counter value up to the ceiling, with fuel for the runs that
    are left, the chain ends; the runs that scheduled a further one left
    the estimates [progress_at pollCount], [progress_at (pollCount + 1)],
    and so on, each on an answer that keeps polling; and the last run left
    [succeeded] on a success with a video URL and [idle] otherwise. *)
Lemma poll_chain_runs (fuel : nat) (tid : value) (replies : nat -> fetch_outcome) :
  forall (pollCount : nat) (c : client),
    (pollCount <= maxPolls)%nat ->
    (maxPolls - pollCount < fuel)%nat ->
    exists seen final,
      poll_chain fuel tid replies pollCount c = Some (seen, final)
      /\ (pollCount + List.length seen <= maxPolls)%nat
      /\ map progress_of seen = map progress_at (seq pollCount (List.length seen))
      /\ (forall k, (k < List.length seen)%nat -> keeps_polling (replies (pollCount + k)%nat))
      /\ (resolves_with_video (replies (pollCount + List.length seen)%nat) ->
          generateState (session final) = succeeded)
      /\ (~ resolves_with_video (replies (pollCount + List.length seen)%nat) ->
          generateState (session final) = idle).
Proof.
  induction fuel as [|fuel IH]; intros pollCount c Hle Hfuel; [lia|].
  cbn [poll_chain]. rewrite poll_unfold.
  destruct (reply_cases pollCount (replies pollCount)) as [Hr | [[Hk Hlt] | [Hnr Hnk]]].
  - destruct Hr as [d [Hd [Hs Hu]]]. rewrite Hd.
    rewrite poll_resume_succeeds by assumption.
    eexists [], _. cbn [List.length map seq]. rewrite Nat.add_0_r.
    repeat split; try reflexivity; try lia.
    intros H. elim H. exists d. auto.
  - pose proof Hk as Hk0. destruct Hk as [d [Hd [Hs Hf]]]. rewrite Hd.
    rewrite poll_resume_continues by assumption.
    edestruct (IH (S pollCount)) as [seen [final [Hrun [Hlen [Hmap [Hkeep [Hok Hko]]]]]]];
      [lia | lia | rewrite Hrun].
    eexists (_ :: seen), final. cbn [List.length map seq].
    replace (pollCount + S (List.length seen))%nat
      with (S pollCount + List.length seen)%nat by lia.
    repeat split; try assumption; try lia.
    + f_equal. exact Hmap.
    + intros [|k] Hk'.
      * rewrite Nat.add_0_r. exact Hk0.
      * replace (pollCount + S k)%nat with (S pollCount + k)%nat by lia.
        apply Hkeep. lia.
  - destruct (poll_resume_fails pollCount (replies pollCount)
                {| session := session c; log := log c ++ [FetchStatus tid] |} Hnr Hnk)
      as [msg ->].
    eexists [], _. cbn [List.length map seq]. rewrite Nat.add_0_r.
    repeat split; try reflexivity; try lia.
    intros H. now elim Hnr.
Qed.

Lemma nondecreasing_progress_at (n pollCount : nat) :
  (pollCount + n <= S maxPolls)%nat ->
  nondecreasing (map progress_at (seq pollCount n)).
Proof.
  revert pollCount. induction n as [|n IH]; intros pollCount H; [exact I|].
  destruct n as [|n]; [exact I|].
  change (Num.le (progress_at pollCount) (progress_at (S pollCount))
          /\ nondecreasing (map progress_at (seq (S pollCount) (S n)))).
  split; [apply progress_at_mono; lia | apply IH; lia].
Qed.

Lemma capped_progress_at (n pollCount : nat) :
  (pollCount + n <= S maxPolls)%nat ->
  Forall (fun x => Num.le x 90) (map progress_at (seq pollCount n)).
Proof.
  intros H. apply Forall_forall. intros x Hx.
  apply in_map_iff in Hx. destruct Hx as [k [<- Hk]]. apply in_seq in Hk.
  apply progress_at_bounds. lia.
Qed.

Lemma float_0_not_100 : 0%float <> 100%float.
Proof.
  intros H. apply (f_equal (fun x => PrimFloat.eqb x 0)) in H.
  vm_compute in H. discriminate H.
Qed.

Lemma progress_at_below_100 :
  forallb (fun k => PrimFloat.leb (progress_at k) 100) (seq 0 (S maxPolls)) = true.
Proof. vm_compute. reflexivity. Qed.

Lemma nondecreasing_snoc (l : list float) (y : float) :
  nondecreasing l ->
  Forall (fun x => Num.le x y) l ->
  nondecreasing (l ++ [y]).
Proof.
  induction l as [|a l IH]; intros Hn Hall; [exact I|].
  destruct l as [|b l].
  - split; [now inversion Hall | exact I].
  - destruct Hn as [Hab Hn]. split; [exact Hab|].
    apply IH; [exact Hn | now inversion Hall].
Qed.

(** When [generateVideo] starts the poll loop, the session is in the
    polling state with the initial progress. *)
Lemma generateVideo_started (reply : fetch_outcome) (c c' : client) (tid : value) :
  generateVideo reply c = (inr (Some tid), c') ->
  generateState (session c') =
    {| isUploading := false; isGenerating := true; isPolling := true;
       progress := 20; status := "Task created. Starting video generation..." |}
  /\ taskId (session c') = tid.
Proof.
  unfold generateVideo, getSession, bind.
  destruct (image_of (session c)) as [image|]; [|discriminate].
  destruct reply as [e | [[|] d]]; cbn; intros H; inversion H; now subst.
Qed.

(** C4: from the state in which the poll loop is entered, whose progress is
    20, the estimates left by the successive runs of [poll] never decrease
    and never exceed 90; the run that ends the loop leaves 100 exactly when
    it was answered by a SUCCESS with a video URL, and then the whole
    sequence, that 100 included, is still non-decreasing. *)
Theorem progress_estimate (c0 c : client) (created_reply : fetch_outcome)
  (tid : value) (replies : nat -> fetch_outcome) :
  generateVideo created_reply c0 = (inr (Some tid), c) ->
  progress_of (session c) = 20%float
  /\ exists seen final,
       pollForResults tid replies c = Some (seen, final)
       /\ nondecreasing (map progress_of (session c :: seen))
       /\ Forall (fun s => Num.le (progress_of s) 90) (session c :: seen)
       /\ (progress_of (session final) = 100%float <->
           resolves_with_video (replies (List.length seen)))
       /\ (resolves_with_video (replies (List.length seen)) ->
           nondecreasing (map progress_of ((session c :: seen) ++ [session final]))).
Proof.
  intros Hstart. apply generateVideo_started in Hstart. destruct Hstart as [Hg _].
  assert (H20 : progress_of (session c) = 20%float)
    by (unfold progress_of; now rewrite Hg).
  split; [exact H20|].
  destruct (poll_chain_runs (S maxPolls) tid replies 0 c)
    as [seen [final [Hrun [Hlen [Hmap [_ [Hok Hko]]]]]]]; [lia | lia |].
  cbn [Nat.add] in Hlen, Hok, Hko.
  assert (Hmono : nondecreasing (map progress_of (session c :: seen))).
  { cbn [map]. rewrite H20, Hmap.
    pose proof (nondecreasing_progress_at (List.length seen) 0 ltac:(lia)) as Hn.
    destruct (List.length seen) as [|n]; [exact I|].
    split; [apply progress_at_bounds; lia | exact Hn]. }
  assert (Hcap : Forall (fun s => Num.le (progress_of s) 90) (session c :: seen)).
  { constructor; [rewrite H20; reflexivity|].
    rewrite <- (Forall_map progress_of (fun x => Num.le x 90)), Hmap.
    apply capped_progress_at. lia. }
  exists seen, final. repeat split; try assumption.
  - intros H100.
    assert (Hdec : resolves_with_video (replies (List.length seen))
                   \/ ~ resolves_with_video (replies (List.length seen))).
    { destruct (reply_cases 0 (replies (List.length seen))) as [Hr | [[Hk _] | [Hnr _]]];
        [now left | right | now right].
      intros Hr. now apply (resolves_not_keeps _ Hr). }
    destruct Hdec as [Hr | Hnr]; [exact Hr|].
    apply Hko in Hnr. unfold progress_of in H100. rewrite Hnr in H100.
    now elim float_0_not_100.
  - intros Hr. unfold progress_of. now rewrite (Hok Hr).
  - intros Hr. rewrite map_app.
    apply (nondecreasing_snoc (map progress_of (session c :: seen))
             (progress_of (session final))); [exact Hmono|].
    replace (progress_of (session final)) with 100%float
      by (unfold progress_of; now rewrite (Hok Hr)).
    cbn [map]. constructor; [rewrite H20; reflexivity|].
    rewrite Hmap. apply Forall_forall. intros x Hx.
    apply in_map_iff in Hx. destruct Hx as [k [<- Hk]]. apply in_seq in Hk.
    pose proof progress_at_below_100 as A. rewrite forallb_forall in A.
    apply A, in_seq. lia.
Qed.

Lemma progress_estimate_witness :
  generateVideo created with_image = (inr (Some (JStr "task-1")), polling)
  /\ progress_of (session polling) = 20%float
  /\ exists seen final,
       pollForResults (JStr "task-1") (fun _ => finished) polling = Some (seen, final)
       /\ nondecreasing (map progress_of (session polling :: seen))
       /\ Forall (fun s => Num.le (progress_of s) 90) (session polling :: seen)
       /\ (progress_of (session final) = 100%float <->
           resolves_with_video ((fun _ : nat => finished) (List.length seen)))
       /\ (resolves_with_video ((fun _ : nat => finished) (List.length seen)) ->
           nondecreasing (map progress_of ((session polling :: seen) ++ [session final]))).
Proof.
  split; [reflexivity|].
  exact (progress_estimate with_image polling created (JStr "task-1")
           (fun _ => finished) eq_refl).
Defined.

(** *** A loop that no answer resolves *)

Lemma poll_chain_unresolved (tid : value) (replies : nat -> fetch_outcome) :
  (forall k, keeps_polling (replies k)) ->
  forall (n fuel pollCount : nat) (c : client),
    (pollCount + n = maxPolls)%nat ->
    (n < fuel)%nat ->
    exists seen,
      List.length seen = n
      /\ poll_chain fuel tid replies pollCount c =
         Some (seen,
               {| session := with_generateState (fun _ => idle) (session c);
                  log := log c ++ rounds tid n
                         ++ [FetchStatus tid;
                             Toast true "Generation failed" (timed_out "10.0")] |}).
Proof.
  intros Hall. induction n as [|n IH]; intros fuel pollCount c Hsum Hfuel;
    (destruct fuel as [|fuel]; [lia|]);
    cbn [poll_chain]; rewrite poll_unfold;
    destruct (Hall pollCount) as [d [-> [Hs Hf]]].
  - rewrite poll_resume_times_out by (assumption || lia). cbn [session log].
    replace pollCount with maxPolls by lia. rewrite elapsed_at_ceiling.
    exists []. split; [reflexivity|]. cbn [session log rounds app].
    now rewrite <- app_assoc.
  - rewrite poll_resume_continues by (assumption || lia). cbn [session log].
    destruct (IH fuel (S pollCount)
                {| session := with_generateState (progress_update pollCount d) (session c);
                   log := (log c ++ [FetchStatus tid]) ++ [SetTimeout 3000] |})
      as [seen [Hlen ->]]; [lia | lia |].
    eexists (_ :: seen). split; [cbn [List.length]; now rewrite Hlen|].
    cbn [session log rounds]. rewrite <- !app_assoc. reflexivity.
Qed.

Lemma rounds_status_fetches (tid : value) (n : nat) (rest : list effect) :
  List.length (filter is_status_fetch (rounds tid n ++ rest)) =
  (n + List.length (filter is_status_fetch rest))%nat.
Proof.
  induction n as [|n IH]; [reflexivity|].
  cbn [rounds app filter is_status_fetch List.length]. now rewrite IH.
Qed.

Lemma rounds_timers (tid : value) (n : nat) (rest : list effect) :
  filter is_timer (rounds tid n ++ rest) =
  repeat (SetTimeout 3000) n ++ filter is_timer rest.
Proof.
  induction n as [|n IH]; [reflexivity|].
  cbn [rounds app filter is_timer repeat]. now rewrite IH.
Qed.

(** C3, as the loop has it: when every status request is answered OK with
    neither a SUCCESS carrying a video URL nor a FAIL, the loop makes 201
    status requests, the first 200 each followed by a timer of 3000 ms for
    the next one, and the 201st, made with the counter at 200, ends it with
    the failure message that names "10.0" minutes and suggests the speed
    mode; the generation state is reset. *)
Theorem unresolved_loop_times_out (tid : value) (replies : nat -> fetch_outcome)
  (c : client) :
  (forall n, keeps_polling (replies n)) ->
  exists seen final added,
    pollForResults tid replies c = Some (seen, final)
    /\ List.length seen = 200%nat
    /\ log final = log c ++ added
    /\ added = rounds tid 200
               ++ [FetchStatus tid;
                   Toast true "Generation failed"
                     ("Video generation timed out after 10.0 minutes. "
                      ++ "Please try again or use " ++ dquote ++ "speed" ++ dquote
                      ++ " mode for faster generation.")%string]
    /\ List.length (filter is_status_fetch added) = 201%nat
    /\ filter is_timer added = repeat (SetTimeout 3000) 200
    /\ session final = with_generateState (fun _ => idle) (session c).
Proof.
  intros Hall.
  destruct (poll_chain_unresolved tid replies Hall maxPolls (S maxPolls) 0 c)
    as [seen [Hlen Hrun]]; [reflexivity | lia |].
  eexists seen, _, _. split; [exact Hrun|].
  split; [exact Hlen|]. split; [reflexivity|].
  split; [reflexivity|].
  split; [now rewrite rounds_status_fetches|].
  split; [now rewrite rounds_timers | reflexivity].
Qed.

Lemma unresolved_loop_times_out_witness :
  (forall n : nat, keeps_polling ((fun _ => processing) n))
  /\ exists seen final added,
       pollForResults (JStr "task-1") (fun _ => processing) polling = Some (seen, final)
       /\ List.length seen = 200%nat
       /\ log final = log polling ++ added
       /\ added = rounds (JStr "task-1") 200
                  ++ [FetchStatus (JStr "task-1");
                      Toast true "Generation failed"
                        ("Video generation timed out after 10.0 minutes. "
                         ++ "Please try again or use " ++ dquote ++ "speed" ++ dquote
                         ++ " mode for faster generation.")%string]
       /\ List.length (filter is_status_fetch added) = 201%nat
       /\ filter is_timer added = repeat (SetTimeout 3000) 200
       /\ session final = with_generateState (fun _ => idle) (session polling).
Proof.
  assert (H : forall n : nat, keeps_polling ((fun _ => processing) n)).
  { intros _. eexists. split; [reflexivity|]. split; reflexivity. }
  split; [exact H|].
  exact (unresolved_loop_times_out (JStr "task-1") (fun _ => processing) polling H).
Defined.

(** C3 as it is worded fails: with every answer PROCESSING the loop has
    made 201 status requests, not 200, when it times out. *)
Lemma timeout_comes_after_201_requests :
  option_map (fun run => List.length (filter is_status_fetch (log (snd run))))
             (pollForResults (JStr "task-1") (fun _ => processing) polling)
  = Some 201%nat
  /\ option_map (fun run => List.length (filter is_status_fetch (log (snd run))))
                (pollForResults (JStr "task-1") (fun _ => processing) polling)
     <> Some 200%nat.
Proof.
  assert (H : option_map (fun run => List.length (filter is_status_fetch (log (snd run))))
                (pollForResults (JStr "task-1") (fun _ => processing) polling)
              = Some 201%nat) by (vm_compute; reflexivity).
  split; [exact H | rewrite H; discriminate].
Qed.

(** *** Reset while a poll loop is running *)

Lemma resetUpload_result (c : client) :
  resetUpload c =
  (inr tt,
   {| session :=
        {| uploadedImage := None; generatedVideoUrl := JNull; taskId := JNull;
           prompt := prompt (session c); quality := quality (session c);
           duration := duration (session c); fps := fps (session c);
           resolution := resolution (session c); generateState := idle |};
      log := log c ++ (if file_input_mounted (session c) then [ClearFileInput] else []) |}).
Proof.
  unfold resetUpload, getSession, bind.
  destruct (file_input_mounted (session c)); cbn; [reflexivity | now rewrite app_nil_r].
Qed.

(** A run of [poll] never writes the task id, the uploaded image or the
    generation parameters. *)
Lemma poll_resume_frame (pollCount : nat) (reply : fetch_outcome) (c : client) :
  let s' := session (snd (poll_resume pollCount reply c)) in
  taskId s' = taskId (session c)
  /\ uploadedImage s' = uploadedImage (session c)
  /\ prompt s' = prompt (session c) /\ quality s' = quality (session c)
  /\ duration s' = duration (session c) /\ fps s' = fps (session c)
  /\ resolution s' = resolution (session c).
Proof.
  destruct (reply_cases pollCount reply) as [Hr | [[Hk Hlt] | [Hnr Hnk]]].
  - destruct Hr as [d [-> [Hs Hu]]]. rewrite poll_resume_succeeds by assumption.
    cbn. tauto.
  - destruct Hk as [d [-> [Hs Hf]]]. rewrite poll_resume_continues by assumption.
    cbn. tauto.
  - destruct (poll_resume_fails pollCount reply c Hnr Hnk) as [msg ->]. cbn. tauto.
Qed.



(** *** Upload *)

(** A file of at most 10MB with an image type is accepted by both
    handlers, and the earlier result, task id and generation state are
    cleared. *)
Lemma upload_accepted (file : File) (c : client) :
  (size file <= 10 * 1024 * 1024)%Z ->
  String.prefix "image/" (type file) = true ->
  let accepted :=
    (inr tt,
     {| session :=
          {| uploadedImage := result file; generatedVideoUrl := JNull;
             taskId := JNull;
             prompt := prompt (session c); quality := quality (session c);
             duration := duration (session c); fps := fps (session c);
             resolution := resolution (session c); generateState := idle |};
        log := log c ++ [Toast false "Image uploaded"
                               "Your image is ready to be transformed into a video"] |}) in
  handleImageUpload (Some file) c = accepted /\ handleDrop (Some file) c = accepted.
Proof.
  intros Hsize Htype accepted. subst accepted.
  unfold handleImageUpload, handleDrop, too_large.
  assert (Hs : (size file >? 10 * 1024 * 1024)%Z = false) by lia.
  rewrite Hs, Htype. split; reflexivity.
Qed.

(** The file picker rejects any other file with a message and leaves the
    session as it was. *)
Lemma handleImageUpload_rejects (file : File) (c : client) :
  (10 * 1024 * 1024 < size file)%Z \/ String.prefix "image/" (type file) = false ->
  exists title description,
    handleImageUpload (Some file) c =
    (inr tt, {| session := session c;
                log := log c ++ [Toast true title description] |}).
Proof.
  intros H. unfold handleImageUpload, too_large.
  destruct (size file >? 10 * 1024 * 1024)%Z eqn:Hs.
  - do 2 eexists. reflexivity.
  - destruct H as [H | H]; [lia|]. rewrite H. do 2 eexists. reflexivity.
Qed.

(** A dropped image above 10MB is rejected with a message. *)
Lemma handleDrop_rejects_large_image (file : File) (c : client) :
  (10 * 1024 * 1024 < size file)%Z ->
  String.prefix "image/" (type file) = true ->
  handleDrop (Some file) c =
  (inr tt, {| session := session c;
              log := log c ++ [Toast true "File too large"
                                     "Please upload an image smaller than 10MB"] |}).
Proof.
  intros Hs Ht. unfold handleDrop, too_large. rewrite Ht.
  assert (H : (size file >? 10 * 1024 * 1024)%Z = true) by lia.
  now rewrite H.
Qed.

(** C8 at a dropped file that is not an image: the file picker shows the
    "Invalid file type" message, the drop handler shows nothing at all. *)
Theorem dropped_non_image_is_silent (c : client) :
  handleDrop (Some pdf) c = (inr tt, c)
  /\ handleImageUpload (Some pdf) c =
     (inr tt, {| session := session c;
                 log := log c ++ [Toast true "Invalid file type"
                                        "Please upload an image file (JPEG, PNG, WebP)"] |}).
Proof. split; reflexivity. Qed.

(** *** A success that carries no video URL *)

Lemma strict_eq_string (v : value) (s : string) :
  strict_eq v (JStr s) = true -> v = JStr s.
Proof.
  destruct v; try discriminate. cbn. intros H. apply String.eqb_eq in H. now subst.
Qed.

(** C10: for a SUCCESS result with none of the four URL fields non-empty,
    the status route answers 200 with status SUCCESS and no [videoUrl] key,
    and the page takes that answer as one that keeps the loop going: below
    the ceiling it updates the progress, leaves the video URL alone and
    schedules the next request; at the ceiling it times out. *)
Theorem success_without_url_keeps_polling (P : behaviour) (w : world) (t : string)
  (r : query_result) :
  t <> "" ->
  client_available P w ->
  result_query P t = inr r ->
  strict_eq (task_status r) (JStr "SUCCESS") = true ->
  Forall (fun v => truthy v = false) (Status.url_fields r) ->
  let served := {| code := 200; body := StatusBody t (JStr "SUCCESS") None |} in
  fst (Status.GET P (Some t) w) = inr served
  /\ data_videoUrl (data_of (body served)) = JUndefined
  /\ keeps_polling (reply_of served)
  /\ forall (pollCount : nat) (c : client),
       ((pollCount < maxPolls)%nat ->
        poll_resume pollCount (reply_of served) c =
        (inr (Some (S pollCount)),
         {| session :=
              with_generateState
                (fun prev =>
                   {| isUploading := isUploading prev;
                      isGenerating := isGenerating prev;
                      isPolling := isPolling prev;
                      progress := progress_at pollCount;
                      status := "Almost done..." |})
                (session c);
            log := log c ++ [SetTimeout 3000] |}))
       /\ ((maxPolls <= pollCount)%nat ->
           poll_resume pollCount (reply_of served) c =
           (inr None,
            {| session := with_generateState (fun _ => idle) (session c);
               log := log c ++ [Toast true "Generation failed"
                                      (timed_out (elapsedMinutes pollCount))] |})).
Proof.
  intros Ht Hc Hr Hs Hall served.
  destruct (StatusFacts.GET_run P w t Ht Hc) as [h Hrun].
  rewrite Hrun, Hr, StatusFacts.response_of_spec. cbn [fst].
  assert (Hnone : Status.spec_videoUrl r = None).
  { unfold Status.spec_videoUrl, Status.first_non_empty. rewrite Hs.
    destruct (find truthy (Status.url_fields r)) as [u|] eqn:E; [|reflexivity].
    apply find_some in E. destruct E as [Hin Hu].
    rewrite Forall_forall in Hall. rewrite (Hall u Hin) in Hu. discriminate. }
  rewrite Hnone, (strict_eq_string _ _ Hs).
  split; [reflexivity|]. split; [reflexivity|].
  split; [eexists; split; [reflexivity | split; reflexivity]|].
  intros pollCount c. split; intros Hcount.
  - unfold reply_of. rewrite poll_resume_continues by (reflexivity || assumption).
    reflexivity.
  - unfold reply_of. now rewrite poll_resume_times_out by (reflexivity || assumption).
Qed.

Lemma success_without_url_keeps_polling_witness :
  fst (Status.GET (answering (bare (JStr "SUCCESS"))) (Some "task-1") fresh)
  = inr {| code := 200; body := StatusBody "task-1" (JStr "SUCCESS") None |}
  /\ fst (poll_resume 7
            (reply_of {| code := 200; body := StatusBody "task-1" (JStr "SUCCESS") None |})
            polling)
     = inr (Some 8%nat).
Proof.
  destruct (success_without_url_keeps_polling
              (answering (bare (JStr "SUCCESS"))) fresh "task-1" (bare (JStr "SUCCESS")))
    as [Hserved [_ [_ Hpoll]]].
  - discriminate.
  - right. exists 1%nat. reflexivity.
  - reflexivity.
  - reflexivity.
  - repeat constructor.
  - split; [exact Hserved|].
    destruct (Hpoll 7%nat polling) as [Hstep _].
    rewrite Hstep; [reflexivity | unfold maxPolls; lia].
Defined.

End PageFacts.

(* ================================================================== *)
(** * Further properties of the route handlers *)

Module RouteProperties.
Import ServerFacts.
Local Open Scope list_scope.

(** ** Outcomes of the submission route *)

(** The client cannot be obtained: none is cached and [ZAI.create()] throws. *)
Lemma getZAIInstance_unavailable (P : behaviour) (w : world) (e : exn) :
  zaiInstance w = None ->
  create P = inl e ->
  getZAIInstance P w =
  (inl e, {| zaiInstance := None; calls := calls w ++ [CreateClient] |}).
Proof.
  intros Hw He. unfold getZAIInstance, get_instance, sdk, bind.
  rewrite Hw, He. cbn. now rewrite Hw.
Qed.

Lemma available_or_not (P : behaviour) (w : world) :
  client_available P w \/ (zaiInstance w = None /\ exists e, create P = inl e).
Proof.
  unfold client_available. destruct (zaiInstance w) as [h|].
  - left. left. discriminate.
  - destruct (create P) as [e|h].
    + right. split; [reflexivity | now exists e].
    + left. right. now exists h.
Qed.

Lemma not_both (P : behaviour) (w : world) (e : exn) :
  client_available P w -> zaiInstance w = None -> create P = inl e -> False.
Proof.
  intros [H | [h H]] Hw He; [now elim H | congruence].
Qed.

(** Every way a run of [POST] can go. *)
Lemma POST_cases (P : behaviour) (req : exn + Generate.parsed_body) (w : world) :
  (exists e, Generate.read_body req = inl e
     /\ Generate.POST P req w =
        (inr (json_status (ErrorBody (message_or e "Failed to create video generation task")) 500),
         w))
  \/ (exists b msg, req = inr (Generate.Body b) /\ Generate.absent_or_unprefixed (Generate.imageData b)
        /\ Generate.POST P req w = (inr (json_status (ErrorBody msg) 400), w))
  \/ (exists b, req = inr (Generate.Body b) /\ truthy (Generate.imageData b) = true
        /\ (forall s, Generate.imageData b <> JStr s)
        /\ Generate.POST P req w =
           (inr (json_status (ErrorBody "imageData.startsWith is not a function") 500), w))
  \/ (exists b e, req = inr (Generate.Body b) /\ Generate.image_data_url (Generate.imageData b)
        /\ zaiInstance w = None /\ create P = inl e
        /\ Generate.POST P req w =
           (inr (json_status
                   (ErrorBody (message_or e "Failed to create video generation task")) 500),
            {| zaiInstance := None; calls := calls w ++ [CreateClient] |}))
  \/ (exists b e h, req = inr (Generate.Body b) /\ Generate.image_data_url (Generate.imageData b)
        /\ client_available P w
        /\ generations_create P (Generate.params_of b) = inl e
        /\ Generate.POST P req w =
           (inr (json_status
                   (ErrorBody (message_or e "Failed to create video generation task")) 500),
            {| zaiInstance := Some h;
               calls := (calls w ++ client_calls w)
                        ++ [GenerationsCreate (Generate.params_of b)] |}))
  \/ (exists b task h, req = inr (Generate.Body b) /\ Generate.image_data_url (Generate.imageData b)
        /\ client_available P w
        /\ generations_create P (Generate.params_of b) = inr task
        /\ Generate.POST P req w =
           (inr (json (CreatedBody true (id task) (created_status task))),
            {| zaiInstance := Some h;
               calls := (calls w ++ client_calls w)
                        ++ [GenerationsCreate (Generate.params_of b)] |})).
Proof.
  destruct req as [e | [|b]].
  { left. exists e. split; [reflexivity|]. now apply GenerateFacts.POST_unreadable. }
  { left. eexists. split; [reflexivity|]. now apply GenerateFacts.POST_unreadable. }
  right.
  destruct (truthy (Generate.imageData b)) eqn:Ht.
  2:{ left. destruct (GenerateFacts.POST_unprefixed P w b (or_introl Ht)) as [msg [_ H]].
      exists b, msg. split; [reflexivity|]. split; [now left | exact H]. }
  destruct (Generate.imageData b) as [| | x | x | s] eqn:Hi;
    try (right; left; exists b; split; [reflexivity|]; split; [now rewrite Hi|];
         split; [rewrite Hi; discriminate|];
         apply GenerateFacts.POST_image_not_a_string;
         [now rewrite Hi | rewrite Hi; discriminate]).
  destruct (String.prefix "data:image/" s) eqn:Hp.
  2:{ left.
      assert (Ha : Generate.absent_or_unprefixed (Generate.imageData b))
        by (right; exists s; now rewrite Hi).
      destruct (GenerateFacts.POST_unprefixed P w b Ha) as [msg [_ H]].
      exists b, msg. split; [reflexivity|]. split; [exact Ha | exact H]. }
  right; right.
  assert (Hu : Generate.image_data_url (Generate.imageData b))
    by (exists s; now rewrite Hi).
  destruct (available_or_not P w) as [Hc | [Hw [e He]]].
  - right.
    destruct (getZAIInstance_available P w Hc) as [h Hh].
    destruct (generations_create P (Generate.params_of b)) as [e | task] eqn:Hg.
    + left. exists b, e, h. repeat (split; [assumption || reflexivity|]).
      unfold Generate.POST, Generate.destructure, try_catch, bind, lift, startsWith.
      rewrite Hi, Ht. cbn [negb]. rewrite Hp. cbn [negb]. rewrite Hh.
      unfold sdk. cbn [zaiInstance calls]. rewrite Hg. reflexivity.
    + right. exists b, task, h. repeat (split; [assumption || reflexivity|]).
      unfold Generate.POST, Generate.destructure, try_catch, bind, lift, startsWith.
      rewrite Hi, Ht. cbn [negb]. rewrite Hp. cbn [negb]. rewrite Hh.
      unfold sdk. cbn [zaiInstance calls]. rewrite Hg. reflexivity.
  - left. exists b, e. repeat (split; [assumption || reflexivity|]).
    unfold Generate.POST, Generate.destructure, try_catch, bind, lift, startsWith.
    rewrite Hi, Ht. cbn [negb]. rewrite Hp. cbn [negb].
    rewrite (getZAIInstance_unavailable P w e Hw He). reflexivity.
Qed.

Lemma valid_excludes_invalid (v : value) :
  Generate.image_data_url v -> Generate.absent_or_unprefixed v -> False.
Proof.
  intros [s [-> Hp]] [Ht | [s' [Hs Hp']]].
  - rewrite (prefixed_nonempty "data:image/" s) in Ht by (discriminate || assumption).
    discriminate.
  - injection Hs as <-. congruence.
Qed.

Lemma queries_submission (p : generation_params) :
  Status.queries [GenerationsCreate p] = [].
Proof. reflexivity. Qed.

(** X1: the status code of the submission route tells what happened.  It is
    400 exactly when the body parses to a value other than [null] whose
    [imageData] is absent (or falsy) or is a string without the image
    data-URL prefix; it is 200 exactly for such a body with a prefixed
    [imageData] when the client could be obtained and the provider returned
    a task; in every other case (a body that is not JSON, a body that is
    [null], an [imageData] that is not a string, a client that cannot be
    created, a submission that throws) it is 500.  The handler itself never
    throws. *)
Theorem submission_response_code (P : behaviour) (req : exn + Generate.parsed_body)
  (w : world) :
  exists resp,
    fst (Generate.POST P req w) = inr resp
    /\ (code resp = 400%Z <->
        exists b, req = inr (Generate.Body b)
                  /\ Generate.absent_or_unprefixed (Generate.imageData b))
    /\ (code resp = 200%Z <->
        exists b task,
          req = inr (Generate.Body b) /\ Generate.image_data_url (Generate.imageData b)
          /\ client_available P w
          /\ generations_create P (Generate.params_of b) = inr task)
    /\ (code resp <> 400%Z -> code resp <> 200%Z -> code resp = 500%Z)
    /\ (req = inr Generate.NullBody -> code resp = 500%Z).
Proof.
  destruct (POST_cases P req w)
    as [[e [Hq H]] | [[b [msg [Hq [Ha H]]]] | [[b [Hq [Ht [Hn H]]]]
       | [[b [e [Hq [Hu [Hw [He H]]]]]] | [[b [e [h [Hq [Hu [Hc [Hg H]]]]]]]
       | [b [task [h [Hq [Hu [Hc [Hg H]]]]]]]]]]]];
    rewrite H; eexists; (split; [reflexivity|]); cbn [code json json_status];
    try subst req;
    (split; [|split; [|split; [|try discriminate; reflexivity]]]).
  - split; [discriminate | intros [b [Hb _]]; rewrite Hb in Hq; discriminate Hq].
  - split; [discriminate | intros [b [t [Hb _]]]; rewrite Hb in Hq; discriminate Hq].
  - reflexivity.
  - split; [intros _; now exists b | reflexivity].
  - split; [discriminate|].
    intros [b' [t [Hb [Hu _]]]]. injection Hb as <-.
    now elim (valid_excludes_invalid _ Hu Ha).
  - congruence.
  - split; [discriminate|].
    intros [b' [Hb [Hf | [s [Hs _]]]]]; injection Hb as <-; [congruence | now elim (Hn s)].
  - split; [discriminate|].
    intros [b' [t [Hb [[s [Hs _]] _]]]]. injection Hb as <-. now elim (Hn s).
  - reflexivity.
  - split; [discriminate|].
    intros [b' [Hb Ha]]. injection Hb as <-. now elim (valid_excludes_invalid _ Hu Ha).
  - split; [discriminate|].
    intros [b' [t [Hb [_ [Hc _]]]]]. now elim (not_both P w e Hc Hw He).
  - reflexivity.
  - split; [discriminate|].
    intros [b' [Hb Ha]]. injection Hb as <-. now elim (valid_excludes_invalid _ Hu Ha).
  - split; [discriminate|].
    intros [b' [t [Hb [_ [_ Hg']]]]]. injection Hb as <-. congruence.
  - reflexivity.
  - split; [discriminate|].
    intros [b' [Hb Ha]]. injection Hb as <-. now elim (valid_excludes_invalid _ Hu Ha).
  - split; [intros _; now exists b, task | reflexivity].
  - congruence.
Qed.

(** X2: whatever the request and however the SDK answers, one run of the
    submission route only appends to the call log, never queries a result,
    submits at most one generation, and creates at most one client, none at
    all when one is cached; a 400 leaves the module state untouched. *)
Theorem submission_call_discipline (P : behaviour) (req : exn + Generate.parsed_body)
  (w : world) :
  exists added,
    calls (snd (Generate.POST P req w)) = calls w ++ added
    /\ Status.queries added = []
    /\ (List.length (Generate.submissions added) <= 1)%nat
    /\ (creations added <= 1)%nat
    /\ (zaiInstance w <> None -> creations added = 0%nat)
    /\ (forall resp, fst (Generate.POST P req w) = inr resp -> code resp = 400%Z ->
        snd (Generate.POST P req w) = w).
Proof.
  assert (Hcc : forall w0, Status.queries (client_calls w0) = []
                           /\ Generate.submissions (client_calls w0) = []
                           /\ (creations (client_calls w0) <= 1)%nat
                           /\ (zaiInstance w0 <> None -> creations (client_calls w0) = 0%nat)).
  { intros w0. unfold client_calls. destruct (zaiInstance w0); cbn; repeat split; auto.
    intros H. now elim H. }
  destruct (Hcc w) as [Hq1 [Hs1 [Hc1 Hc0]]].
  assert (Hcr : forall l p, creations (l ++ [GenerationsCreate p]) = creations l).
  { induction l as [|c l IH]; intros p; [reflexivity|]. destruct c; cbn; now rewrite IH. }
  destruct (POST_cases P req w)
    as [[e [Hq H]] | [[b [msg [Hq [Ha H]]]] | [[b [Hq [Ht [Hn H]]]]
       | [[b [e [Hq [Hu [Hw [He H]]]]]] | [[b [e [h [Hq [Hu [Hc [Hg H]]]]]]]
       | [b [task [h [Hq [Hu [Hc [Hg H]]]]]]]]]]]];
    rewrite H; cbn [fst snd calls].
  - exists []. rewrite app_nil_r. repeat split; auto.
  - exists []. rewrite app_nil_r. repeat split; auto.
  - exists []. rewrite app_nil_r. repeat split; auto.
  - exists [CreateClient]. repeat split; auto.
    + intros Hne. now elim Hne.
    + intros r Hr. injection Hr as <-. discriminate.
  - exists (client_calls w ++ [GenerationsCreate (Generate.params_of b)]).
    rewrite app_assoc, queries_app, submissions_app, Hq1, Hs1, Hcr.
    repeat split; auto; intros r Hr; injection Hr as <-; discriminate.
  - exists (client_calls w ++ [GenerationsCreate (Generate.params_of b)]).
    rewrite app_assoc, queries_app, submissions_app, Hq1, Hs1, Hcr.
    repeat split; auto; intros r Hr; injection Hr as <-; discriminate.
Qed.

(** X3: an accepted submission is answered 200 with [success: true] and the
    provider's task id and task status passed through as they came; a
    submission the provider throws on is answered 500 with the message of
    the error, or with the fixed message when what was thrown is not an
    [Error]; in both cases exactly one submission was made, with no retry. *)
Theorem submission_mirrors_provider (P : behaviour) (b : Generate.request_body) (w : world) :
  Generate.image_data_url (Generate.imageData b) ->
  client_available P w ->
  Generate.submissions (calls (snd (Generate.POST P (inr (Generate.Body b)) w))) =
    Generate.submissions (calls w) ++ [Generate.params_of b]
  /\ (forall task, generations_create P (Generate.params_of b) = inr task ->
      fst (Generate.POST P (inr (Generate.Body b)) w) =
      inr {| code := 200; body := CreatedBody true (id task) (created_status task) |})
  /\ (forall m, generations_create P (Generate.params_of b) = inl (Error m) ->
      fst (Generate.POST P (inr (Generate.Body b)) w) = inr {| code := 500; body := ErrorBody m |})
  /\ (forall v, generations_create P (Generate.params_of b) = inl (Thrown v) ->
      fst (Generate.POST P (inr (Generate.Body b)) w) =
      inr {| code := 500; body := ErrorBody "Failed to create video generation task" |}).
Proof.
  intros Hu Hc. split; [now apply GenerateFacts.POST_accepted|].
  destruct (POST_cases P (inr (Generate.Body b)) w)
    as [[e [Hq H]] | [[b' [msg [Hq [Ha H]]]] | [[b' [Hq [Ht [Hn H]]]]
       | [[b' [e [Hq [_ [Hw [He H]]]]]] | [[b' [e [h [Hq [_ [_ [Hg H]]]]]]]
       | [b' [task [h [Hq [_ [_ [Hg H]]]]]]]]]]]];
    try discriminate Hq; injection Hq as <-.
  - now elim (valid_excludes_invalid _ Hu Ha).
  - destruct Hu as [s [Hs _]]. now elim (Hn s).
  - now elim (not_both P w e Hc Hw He).
  - rewrite H, Hg. cbn [fst].
    repeat split; intros x Hx; try discriminate Hx; injection Hx as ->; reflexivity.
  - rewrite H, Hg. cbn [fst].
    repeat split; intros x Hx; try discriminate Hx; injection Hx as ->; reflexivity.
Qed.

Lemma submission_mirrors_provider_witness :
  fst (Generate.POST obliging (inr (Generate.Body (Generate.only_image (JStr "data:image/png;base64,AAAA"))))
         fresh)
  = inr {| code := 200;
           body := CreatedBody true (JStr "task-1") (JStr "PROCESSING") |}.
Proof.
  refine (proj1 (proj2 (submission_mirrors_provider obliging
            (Generate.only_image (JStr "data:image/png;base64,AAAA")) fresh _ _))
            {| id := JStr "task-1"; created_status := JStr "PROCESSING" |} eq_refl).
  - eexists. split; reflexivity.
  - right. exists 1%nat. reflexivity.
Defined.

(** ** Outcomes of the status route *)

Lemma GET_unavailable (P : behaviour) (w : world) (t : string) (e : exn) :
  t <> "" ->
  zaiInstance w = None ->
  create P = inl e ->
  Status.GET P (Some t) w =
  (inr (json_status
          (ErrorBody (message_or e "Failed to query video generation status")) 500),
   {| zaiInstance := None; calls := calls w ++ [CreateClient] |}).
Proof.
  intros Ht Hw He. unfold Status.GET, try_catch, bind. cbn [Status.param_value].
  rewrite (nonempty_truthy t Ht). cbn [negb].
  rewrite (getZAIInstance_unavailable P w e Hw He). reflexivity.
Qed.

Lemma missing_or_not (taskId : option string) :
  (taskId = None \/ taskId = Some "") \/ exists t, taskId = Some t /\ t <> "".
Proof.
  destruct taskId as [[|a t]|]; auto.
  right. eexists. split; [reflexivity | discriminate].
Qed.

(** X4: the status code of the status route tells what happened.  It is 400
    exactly when the [taskId] parameter is absent or empty; it is 200
    exactly when the parameter is non-empty, the client could be obtained
    and the provider's query returned, and then the body echoes the
    requested task id and carries the provider's status as it came; in every
    other case it is 500.  The handler itself never throws. *)
Theorem status_response_code (P : behaviour) (taskId : option string) (w : world) :
  exists resp,
    fst (Status.GET P taskId w) = inr resp
    /\ (code resp = 400%Z <-> taskId = None \/ taskId = Some "")
    /\ (code resp = 200%Z <->
        exists t r, taskId = Some t /\ t <> "" /\ client_available P w
                    /\ result_query P t = inr r)
    /\ (code resp = 200%Z ->
        exists t r v, taskId = Some t /\ result_query P t = inr r
                      /\ body resp = StatusBody t (task_status r) v)
    /\ (code resp <> 400%Z -> code resp <> 200%Z -> code resp = 500%Z).
Proof.
  destruct (missing_or_not taskId) as [Hm | [t [-> Ht]]].
  - assert (H : Status.GET P taskId w =
                (inr {| code := 400; body := ErrorBody "Task ID is required" |}, w))
      by (destruct Hm as [-> | ->]; reflexivity).
    rewrite H. eexists. split; [reflexivity|]. cbn [code body].
    split; [split; [intros _; exact Hm | reflexivity]|].
    split; [split; [discriminate|]|split; [discriminate | congruence]].
    intros [t [r [Hq [Ht _]]]]. destruct Hm as [Hm | Hm]; congruence.
  - destruct (available_or_not P w) as [Hc | [Hw [e He]]].
    + destruct (StatusFacts.GET_run P w t Ht Hc) as [h ->]. cbn [fst].
      destruct (result_query P t) as [e | r] eqn:Hr; eexists;
        (split; [reflexivity|]); cbn [code body json json_status].
      * split; [split; [discriminate | intros [H | H]; congruence]|].
        split; [split; [discriminate|]|split; [discriminate | reflexivity]].
        intros [t' [r [Hq [_ [_ Hr']]]]]. injection Hq as <-. congruence.
      * split; [split; [discriminate | intros [H | H]; congruence]|].
        split; [split; [intros _; now exists t, r | reflexivity]|].
        split; [|congruence].
        intros _. rewrite StatusFacts.response_of_spec. now exists t, r, (Status.spec_videoUrl r).
    + rewrite (GET_unavailable P w t e Ht Hw He). eexists.
      split; [reflexivity|]. cbn [code body json_status].
      split; [split; [discriminate | intros [H | H]; congruence]|].
      split; [split; [discriminate|]|split; [discriminate | reflexivity]].
      intros [t' [r [_ [_ [Hc _]]]]]. now elim (not_both P w e Hc Hw He).
Qed.

Lemma creations_app (l1 l2 : list call) :
  creations (l1 ++ l2) = (creations l1 + creations l2)%nat.
Proof.
  induction l1 as [|c l1 IH]; [reflexivity|].
  destruct c; cbn; now rewrite IH.
Qed.

Lemma client_calls_facts (w : world) :
  Status.queries (client_calls w) = []
  /\ Generate.submissions (client_calls w) = []
  /\ (creations (client_calls w) <= 1)%nat
  /\ (zaiInstance w <> None -> creations (client_calls w) = 0%nat).
Proof.
  unfold client_calls. destruct (zaiInstance w); cbn; repeat split; auto.
  intros H. now elim H.
Qed.

(** X5: whatever the request and however the SDK answers, one run of the
    status route only appends to the call log, never submits a generation,
    makes at most one query, which is for the requested task id, and
    creates at most one client, none at all when one is cached; a request
    without a task id leaves the module state untouched. *)
Theorem status_call_discipline (P : behaviour) (taskId : option string) (w : world) :
  exists added,
    calls (snd (Status.GET P taskId w)) = calls w ++ added
    /\ Generate.submissions added = []
    /\ (Status.queries added = []
        \/ exists t, taskId = Some t /\ Status.queries added = [t])
    /\ (creations added <= 1)%nat
    /\ (zaiInstance w <> None -> creations added = 0%nat)
    /\ (taskId = None \/ taskId = Some "" -> snd (Status.GET P taskId w) = w).
Proof.
  destruct (client_calls_facts w) as [Hq1 [Hs1 [Hc1 Hc0]]].
  destruct (missing_or_not taskId) as [Hm | [t [-> Ht]]].
  - assert (H : Status.GET P taskId w =
                (inr {| code := 400; body := ErrorBody "Task ID is required" |}, w))
      by (destruct Hm as [-> | ->]; reflexivity).
    rewrite H. exists []. cbn [snd]. rewrite app_nil_r. repeat split; auto.
  - destruct (available_or_not P w) as [Hc | [Hw [e He]]].
    + destruct (StatusFacts.GET_run P w t Ht Hc) as [h ->]. cbn [snd calls].
      exists (client_calls w ++ [ResultQuery t]).
      rewrite app_assoc, queries_app, submissions_app, creations_app, Hq1, Hs1.
      cbn [Status.queries Generate.submissions creations app].
      repeat split; auto; try lia.
      * right. now exists t.
      * intros Hne. rewrite (Hc0 Hne). reflexivity.
      * intros [H | H]; congruence.
    + rewrite (GET_unavailable P w t e Ht Hw He). cbn [snd calls].
      exists [CreateClient]. repeat split; auto.
      * intros Hne. now elim Hne.
      * intros [H | H]; congruence.
Qed.

(** X6: when the provider's query throws, the status route answers 500 with
    the message of the error, or with the fixed message when what was thrown
    is not an [Error]; the query was made exactly once, with no retry, and
    the client stays cached for the next request. *)
Theorem status_query_failure (P : behaviour) (t : string) (w : world) (e : exn) :
  t <> "" ->
  client_available P w ->
  result_query P t = inl e ->
  fst (Status.GET P (Some t) w) =
    inr {| code := 500;
           body := ErrorBody (match e with
                              | Error m => m
                              | Thrown _ => "Failed to query video generation status"
                              end) |}
  /\ Status.queries (calls (snd (Status.GET P (Some t) w))) = Status.queries (calls w) ++ [t]
  /\ zaiInstance (snd (Status.GET P (Some t) w)) <> None.
Proof.
  intros Ht Hc He.
  destruct (StatusFacts.GET_run P w t Ht Hc) as [h ->]. rewrite He.
  cbn [fst snd calls zaiInstance].
  split; [destruct e; reflexivity|].
  split; [|discriminate].
  rewrite !queries_app, queries_client_calls, app_nil_r. reflexivity.
Qed.

Lemma status_query_failure_witness :
  fst (Status.GET {| create := inr 1%nat;
                     generations_create := fun _ => inl (Error "unused");
                     result_query := fun _ => inl (Error "task not found") |}
         (Some "task-9") fresh)
  = inr {| code := 500; body := ErrorBody "task not found" |}.
Proof.
  refine (proj1 (status_query_failure
                   {| create := inr 1%nat;
                      generations_create := fun _ => inl (Error "unused");
                      result_query := fun _ => inl (Error "task not found") |}
                   "task-9" fresh (Error "task not found") _ _ eq_refl)).
  - discriminate.
  - right. exists 1%nat. reflexivity.
Defined.

(** ** The client singleton across requests *)

Lemma getZAIInstance_cached (P : behaviour) (w : world) (h : handle) :
  zaiInstance w = Some h -> getZAIInstance P w = (inr h, w).
Proof.
  intros Hw. unfold getZAIInstance, get_instance, bind, ret. now rewrite Hw.
Qed.

Lemma POST_keeps_client (P : behaviour) (req : exn + Generate.parsed_body) (w : world)
  (h : handle) :
  zaiInstance w = Some h ->
  zaiInstance (snd (Generate.POST P req w)) = Some h
  /\ creations (calls (snd (Generate.POST P req w))) = creations (calls w).
Proof.
  intros Hw. unfold Generate.POST, Generate.destructure, try_catch, bind, lift.
  destruct req as [e | [|b]]; [now split | now split |].
  destruct (truthy (Generate.imageData b)); cbn [negb]; [|now split].
  destruct (startsWith (Generate.imageData b) "data:image/") as [e | [|]];
    cbn [negb]; try now split.
  rewrite (getZAIInstance_cached P w h Hw). unfold sdk.
  destruct (generations_create P (Generate.params_of b)); cbn;
    rewrite creations_app, Nat.add_0_r; now split.
Qed.

Lemma GET_keeps_client (P : behaviour) (taskId : option string) (w : world) (h : handle) :
  zaiInstance w = Some h ->
  zaiInstance (snd (Status.GET P taskId w)) = Some h
  /\ creations (calls (snd (Status.GET P taskId w))) = creations (calls w).
Proof.
  intros Hw. unfold Status.GET, try_catch, bind.
  destruct taskId as [t|]; [|now split].
  destruct (truthy (Status.param_value (Some t))); cbn [negb]; [|now split].
  rewrite (getZAIInstance_cached P w h Hw). unfold sdk.
  destruct (result_query P t); cbn; rewrite creations_app, Nat.add_0_r; now split.
Qed.

Lemma serve_all_keeps_client {Req : Type}
  (handler : behaviour -> Req -> M (St := world) response) :
  (forall P req w h, zaiInstance w = Some h ->
     zaiInstance (snd (handler P req w)) = Some h
     /\ creations (calls (snd (handler P req w))) = creations (calls w)) ->
  forall steps w h, zaiInstance w = Some h ->
    zaiInstance (snd (serve_all handler steps w)) = Some h
    /\ creations (calls (snd (serve_all handler steps w))) = creations (calls w).
Proof.
  intros Hstep. induction steps as [|[P req] steps IH]; intros w h Hw; [now split|].
  cbn [serve_all]. destruct (Hstep P req w h Hw) as [H1 H2].
  destruct (handler P req w) as [r w1]. cbn [snd] in H1, H2.
  destruct (IH w1 h H1) as [H3 H4].
  destruct (serve_all handler steps w1) as [rs w2]. cbn [snd] in *.
  split; [exact H3 | congruence].
Qed.

(** X7: once a route module holds a client, it holds the same one after any
    sequence of requests, and none of them calls [ZAI.create()] again,
    whatever the requests are and however the SDK answers; this holds for
    the submission route and for the status route. *)
Theorem cached_client_is_reused (w : world) (h : handle) :
  zaiInstance w = Some h ->
  (forall steps,
     zaiInstance (snd (serve_all Generate.POST steps w)) = Some h
     /\ creations (calls (snd (serve_all Generate.POST steps w))) = creations (calls w))
  /\ (forall steps,
        zaiInstance (snd (serve_all Status.GET steps w)) = Some h
        /\ creations (calls (snd (serve_all Status.GET steps w))) = creations (calls w)).
Proof.
  intros Hw. split; intros steps.
  - now apply (serve_all_keeps_client Generate.POST POST_keeps_client).
  - now apply (serve_all_keeps_client Status.GET GET_keeps_client).
Qed.

Lemma cached_client_is_reused_witness :
  zaiInstance {| zaiInstance := Some 7%nat; calls := [CreateClient] |} = Some 7%nat
  /\ creations
       (calls (snd (serve_all Status.GET
                      [(obliging, Some "task-1"); (obliging, None); (obliging, Some "task-2")]
                      {| zaiInstance := Some 7%nat; calls := [CreateClient] |})))
     = 1%nat.
Proof.
  split; [reflexivity|].
  exact (proj2 (proj2 (cached_client_is_reused
                         {| zaiInstance := Some 7%nat; calls := [CreateClient] |}
                         7%nat eq_refl)
                  [(obliging, Some "task-1"); (obliging, None); (obliging, Some "task-2")])).
Defined.

Lemma POST_first_client (P : behaviour) (b : Generate.request_body) (w : world) :
  Generate.image_data_url (Generate.imageData b) ->
  zaiInstance w = None ->
  Generate.POST P (inr (Generate.Body b)) w =
  match create P with
  | inl e =>
      (inr (json_status
              (ErrorBody (message_or e "Failed to create video generation task")) 500),
       {| zaiInstance := None; calls := calls w ++ [CreateClient] |})
  | inr h =>
      (match generations_create P (Generate.params_of b) with
       | inl e =>
           inr (json_status
                  (ErrorBody (message_or e "Failed to create video generation task")) 500)
       | inr task => inr (json (CreatedBody true (id task) (created_status task)))
       end,
       {| zaiInstance := Some h;
          calls := calls w ++ [CreateClient; GenerationsCreate (Generate.params_of b)] |})
  end.
Proof.
  intros [s [Hs Hp]] Hw.
  assert (Ht : truthy (JStr s) = true)
    by (apply (prefixed_nonempty "data:image/"); [discriminate | exact Hp]).
  unfold Generate.POST, Generate.destructure, try_catch, bind, lift, startsWith.
  rewrite Hs, Ht. cbn [negb]. rewrite Hp. cbn [negb].
  unfold getZAIInstance, get_instance, sdk, set_instance, modify, bind, ret.
  rewrite Hw. destruct (create P) as [e | h]; cbn; [now rewrite Hw|].
  rewrite <- app_assoc. cbn [app].
  destruct (generations_create P (Generate.params_of b)); reflexivity.
Qed.

(** X8: a client that could not be created is not cached: the request is
    answered 500 with the error's message, no generation is submitted, and
    the next request calls [ZAI.create()] again; when that succeeds the
    second request is submitted. *)
Theorem failed_creation_is_retried (P1 P2 : behaviour) (b1 b2 : Generate.request_body)
  (w : world) (e : exn) (h : handle) :
  Generate.image_data_url (Generate.imageData b1) ->
  Generate.image_data_url (Generate.imageData b2) ->
  zaiInstance w = None ->
  create P1 = inl e ->
  create P2 = inr h ->
  Generate.POST P1 (inr (Generate.Body b1)) w =
    (inr {| code := 500;
            body := ErrorBody (message_or e "Failed to create video generation task") |},
     {| zaiInstance := None; calls := calls w ++ [CreateClient] |})
  /\ snd (serve_all Generate.POST [(P1, inr (Generate.Body b1)); (P2, inr (Generate.Body b2))] w) =
     {| zaiInstance := Some h;
        calls := calls w ++ [CreateClient; CreateClient;
                             GenerationsCreate (Generate.params_of b2)] |}.
Proof.
  intros Hu1 Hu2 Hw He1 He2.
  assert (H1 := POST_first_client P1 b1 w Hu1 Hw). rewrite He1 in H1.
  split; [exact H1|].
  cbn [serve_all]. rewrite H1.
  rewrite (POST_first_client P2 b2
             {| zaiInstance := None; calls := calls w ++ [CreateClient] |} Hu2 eq_refl), He2.
  cbn [snd calls]. rewrite <- app_assoc. reflexivity.
Qed.

Lemma failed_creation_is_retried_witness :
  snd (serve_all Generate.POST
         [({| create := inl (Error "invalid API key");
              generations_create := generations_create obliging;
              result_query := result_query obliging |},
           inr (Generate.Body (Generate.only_image (JStr "data:image/png;base64,AAAA"))));
          (obliging, inr (Generate.Body (Generate.only_image (JStr "data:image/png;base64,BBBB"))))]
         fresh)
  = {| zaiInstance := Some 1%nat;
       calls := [CreateClient; CreateClient;
                 GenerationsCreate
                   (Generate.params_of
                      (Generate.only_image (JStr "data:image/png;base64,BBBB")))] |}.
Proof.
  refine (proj2 (failed_creation_is_retried
                   {| create := inl (Error "invalid API key");
                      generations_create := generations_create obliging;
                      result_query := result_query obliging |}
                   obliging
                   (Generate.only_image (JStr "data:image/png;base64,AAAA"))
                   (Generate.only_image (JStr "data:image/png;base64,BBBB"))
                   fresh (Error "invalid API key") 1%nat _ _ eq_refl eq_refl eq_refl)).
  - eexists. split; reflexivity.
  - eexists. split; reflexivity.
Defined.

(** ** The list entry of a provider result *)

(** X9: only the first entry of [video_result] is ever consulted, and a
    missing one is no error.  For a SUCCESS result whose [video_result] is
    missing, is an empty list, or starts with a null entry, the route
    answers 200 and the flat fields [video_url], [url], [video] decide, in
    that order; when the first entry is an object, its [url] comes first and
    the entries after it never matter. *)
Theorem only_first_list_entry_counts (P : behaviour) (w : world) (t : string)
  (r : query_result) :
  t <> "" ->
  client_available P w ->
  result_query P t = inr r ->
  strict_eq (task_status r) (JStr "SUCCESS") = true ->
  (video_result r = None \/ video_result r = Some []
   \/ (exists rest, video_result r = Some (None :: rest)) ->
   fst (Status.GET P (Some t) w) =
   inr {| code := 200;
          body := StatusBody t (task_status r)
                    (find truthy [video_url r; url r; video r]) |})
  /\ (forall u rest, video_result r = Some (Some u :: rest) ->
      fst (Status.GET P (Some t) w) =
      inr {| code := 200;
             body := StatusBody t (task_status r)
                       (find truthy [u; video_url r; url r; video r]) |}).
Proof.
  intros Ht Hc Hr Hs.
  destruct (StatusFacts.GET_run P w t Ht Hc) as [h ->]. rewrite Hr. cbn [fst].
  rewrite StatusFacts.response_of_spec.
  unfold Status.spec_videoUrl, Status.first_non_empty, Status.url_fields,
    Status.first_entry_url. rewrite Hs.
  split.
  - intros [H | [H | [rest H]]]; rewrite H; reflexivity.
  - intros u rest H. rewrite H. reflexivity.
Qed.

Lemma only_first_list_entry_counts_witness :
  fst (Status.GET
         (answering {| task_status := JStr "SUCCESS"; video_result := Some [];
                       video_url := JStr ""; url := JStr "https://c.example/v.mp4";
                       video := JStr "https://d.example/v.mp4" |})
         (Some "task-1") fresh)
  = inr {| code := 200;
           body := StatusBody "task-1" (JStr "SUCCESS")
                              (Some (JStr "https://c.example/v.mp4")) |}.
Proof.
  refine (proj1 (only_first_list_entry_counts
                   (answering {| task_status := JStr "SUCCESS"; video_result := Some [];
                                 video_url := JStr "";
                                 url := JStr "https://c.example/v.mp4";
                                 video := JStr "https://d.example/v.mp4" |})
                   fresh "task-1"
                   {| task_status := JStr "SUCCESS"; video_result := Some [];
                      video_url := JStr ""; url := JStr "https://c.example/v.mp4";
                      video := JStr "https://d.example/v.mp4" |}
                   _ _ eq_refl eq_refl) _).
  - discriminate.
  - right. exists 1%nat. reflexivity.
  - right. left. reflexivity.
Defined.

End RouteProperties.

(* ================================================================== *)
(** * Further properties of the page component *)

Module PageProperties.
Import Page PageFacts.
Local Open Scope list_scope.

(** ** Upload *)

(** X10: what the file picker does with a file depends on its size first
    and on its type second.  With no file nothing happens; a file above
    10MB is refused as too large whatever its type; a file of at most 10MB
    whose type is not an image type is refused as an invalid type; both
    refusals leave the session as it was; any other file replaces the
    uploaded image, clears the video URL, the task id and the generation
    state, and keeps the generation parameters. *)
Theorem picker_outcomes (file : File) (c : client) :
  handleImageUpload None c = (inr tt, c)
  /\ ((10 * 1024 * 1024 < size file)%Z ->
      handleImageUpload (Some file) c =
      (inr tt, {| session := session c;
                  log := log c ++ [Toast true "File too large"
                                         "Please upload an image smaller than 10MB"] |}))
  /\ ((size file <= 10 * 1024 * 1024)%Z ->
      String.prefix "image/" (type file) = false ->
      handleImageUpload (Some file) c =
      (inr tt, {| session := session c;
                  log := log c ++ [Toast true "Invalid file type"
                                         "Please upload an image file (JPEG, PNG, WebP)"] |}))
  /\ ((size file <= 10 * 1024 * 1024)%Z ->
      String.prefix "image/" (type file) = true ->
      handleImageUpload (Some file) c =
      (inr tt, {| session := uploaded file (session c);
                  log := log c ++ [Toast false "Image uploaded"
                                         "Your image is ready to be transformed into a video"] |})).
Proof.
  unfold handleImageUpload, too_large.
  split; [reflexivity|]. split; [|split].
  - intros H. assert (E : (size file >? 10 * 1024 * 1024)%Z = true) by lia.
    now rewrite E.
  - intros H Ht. assert (E : (size file >? 10 * 1024 * 1024)%Z = false) by lia.
    now rewrite E, Ht.
  - intros H Ht. assert (E : (size file >? 10 * 1024 * 1024)%Z = false) by lia.
    now rewrite E, Ht.
Qed.

(** X11: on every file whose type is an image type, whatever its size,
    dropping it does exactly what picking it does. *)
Theorem drop_agrees_on_images (file : File) (c : client) :
  String.prefix "image/" (type file) = true ->
  handleDrop (Some file) c = handleImageUpload (Some file) c.
Proof.
  intros Ht. unfold handleDrop, handleImageUpload. rewrite Ht.
  destruct (too_large file); reflexivity.
Qed.

Lemma drop_agrees_on_images_witness :
  handleDrop (Some {| size := 20 * 1024 * 1024; type := "image/png"; result := None |})
             with_image
  = handleImageUpload
      (Some {| size := 20 * 1024 * 1024; type := "image/png"; result := None |})
      with_image.
Proof.
  exact (drop_agrees_on_images
           {| size := 20 * 1024 * 1024; type := "image/png"; result := None |}
           with_image eq_refl).
Defined.

(** ** Generate *)

Lemma generateVideo_split (reply : fetch_outcome) (c : client) :
  generateVideo reply c =
  match generateVideo_begin c with
  | (inr (Some _), c1) => generateVideo_resume reply c1
  | (_, c1) => (inr None, c1)
  end.
Proof.
  unfold generateVideo, generateVideo_begin, generateVideo_resume, getSession, bind.
  destruct (image_of (session c)); [|reflexivity].
  destruct reply as [e | [[|] d]]; reflexivity.
Qed.

Lemma image_hides_file_input (s : Session) (image : string) :
  image_of s = Some image -> file_input_mounted s = false.
Proof.
  unfold image_of, file_input_mounted. destruct (uploadedImage s) as [i|]; [|discriminate].
  destruct (truthy (JStr i)); [reflexivity | discriminate].
Qed.

Lemma no_image_shows_file_input (s : Session) :
  image_of s = None -> file_input_mounted s = true.
Proof.
  unfold image_of, file_input_mounted. destruct (uploadedImage s) as [i|]; [|reflexivity].
  destruct (truthy (JStr i)); [discriminate | reflexivity].
Qed.

(** X12: without an uploaded image [generateVideo] sends nothing: it shows
    "No image uploaded" and leaves the session as it was.  That is the case
    when no image was ever uploaded, when the read of the uploaded file
    gave nothing, and always right after a reset.  A reset pressed on the
    preview of an uploaded image logs nothing of its own, the file input
    not being rendered then; [resetUpload] run while no image is uploaded,
    for which the page shows no button, clears the file input first. *)
Theorem generate_needs_an_image (reply : fetch_outcome) (c : client) :
  (uploadedImage (session c) = None \/ uploadedImage (session c) = Some "" ->
   generateVideo reply c =
   (inr None,
    {| session := session c;
       log := log c ++ [Toast true "No image uploaded" "Please upload an image first"] |}))
  /\ (forall image, image_of (session c) = Some image ->
      generateVideo reply (snd (resetUpload c)) =
      (inr None,
       {| session := session (snd (resetUpload c));
          log := log c ++ [Toast true "No image uploaded"
                                 "Please upload an image first"] |}))
  /\ (image_of (session c) = None ->
      generateVideo reply (snd (resetUpload c)) =
      (inr None,
       {| session := session (snd (resetUpload c));
          log := log c ++ [ClearFileInput;
                           Toast true "No image uploaded"
                                 "Please upload an image first"] |})).
Proof.
  split; [|split].
  - intros H. unfold generateVideo, getSession, bind, image_of.
    destruct H as [-> | ->]; reflexivity.
  - intros image Hi. rewrite resetUpload_result, (image_hides_file_input _ _ Hi).
    cbn [snd session log]. unfold generateVideo, getSession, bind, image_of. cbn.
    now rewrite app_nil_r.
  - intros Hi. rewrite resetUpload_result, (no_image_shows_file_input _ Hi).
    cbn [snd session log]. unfold generateVideo, getSession, bind, image_of. cbn.
    now rewrite <- app_assoc.
Qed.

(** X13: a submission that fails ends the generation without starting a
    poll loop: the generation state is reset, the uploaded image, the task
    id and the video URL stay as they were, and one failure toast is shown.
    Its text is the route's [error] when the response is not OK and carries
    one, "Failed to create video generation task" when it carries none, the
    message of the error when the request itself throws an [Error], and
    "Failed to generate video" when it throws anything else. *)
Theorem generate_failure (reply : fetch_outcome) (c : client) (image : string) :
  image_of (session c) = Some image ->
  (forall d, reply <> inr (true, d)) ->
  exists message,
    generateVideo reply c =
    (inr None,
     {| session := with_generateState (fun _ => idle) (session c);
        log := log c ++ [FetchGenerate (request_of image (session c));
                         Toast true "Generation failed" message] |})
    /\ (forall m, reply = inl (Error m) -> message = m)
    /\ (forall v, reply = inl (Thrown v) -> message = "Failed to generate video")
    /\ (forall d m, reply = inr (false, d) -> data_error d = Some m -> m <> "" ->
        message = m)
    /\ (forall d, reply = inr (false, d) ->
        data_error d = None \/ data_error d = Some "" ->
        message = "Failed to create video generation task").
Proof.
  intros Hi Hn. unfold generateVideo, getSession, bind. rewrite Hi.
  destruct reply as [e | [[|] d]]; [| now elim (Hn d) |].
  - exists (message_or e "Failed to generate video").
    split; [cbn; now rewrite <- app_assoc|].
    repeat split; try discriminate; intros x Hx; injection Hx as ->; reflexivity.
  - exists (error_or d "Failed to create video generation task").
    split; [cbn; now rewrite <- app_assoc|].
    repeat split; try discriminate.
    + intros d' m Hd Hm Hne. injection Hd as <-. unfold error_or. rewrite Hm.
      now rewrite (ServerFacts.nonempty_truthy m Hne).
    + intros d' Hd [Hm | Hm]; injection Hd as <-; unfold error_or; now rewrite Hm.
Qed.

Lemma generate_failure_witness :
  exists message,
    generateVideo (inr (false, {| data_error := Some "quota exceeded";
                                  data_taskId := JUndefined; data_status := JUndefined;
                                  data_videoUrl := JUndefined |}))
                  with_image
    = (inr None,
       {| session := with_generateState (fun _ => idle) (session with_image);
          log := log with_image
                 ++ [FetchGenerate (request_of sample_image (session with_image));
                     Toast true "Generation failed" message] |})
    /\ message = "quota exceeded".
Proof.
  destruct (generate_failure
              (inr (false, {| data_error := Some "quota exceeded";
                              data_taskId := JUndefined; data_status := JUndefined;
                              data_videoUrl := JUndefined |}))
              with_image sample_image eq_refl)
    as [message [Hrun [_ [_ [Hmsg _]]]]].
  - intros d H. discriminate H.
  - exists message. split; [exact Hrun|].
    apply (Hmsg _ "quota exceeded" eq_refl eq_refl). discriminate.
Defined.

(** An OK answer to the submission always starts the poll loop, with
    whatever [taskId] the answer carries (the page does not check that there
    is one): the task id is stored, the state becomes the polling state with
    progress 20, one request was sent with the uploaded image and the
    current parameters, and the uploaded image and an earlier video URL are
    kept. *)
Lemma generate_success (d : data) (c : client) (image : string) :
  image_of (session c) = Some image ->
  generateVideo (inr (true, d)) c =
  (inr (Some (data_taskId d)),
   {| session :=
        {| uploadedImage := uploadedImage (session c);
           generatedVideoUrl := generatedVideoUrl (session c);
           taskId := data_taskId d;
           prompt := prompt (session c); quality := quality (session c);
           duration := duration (session c); fps := fps (session c);
           resolution := resolution (session c);
           generateState :=
             {| isUploading := false; isGenerating := true; isPolling := true;
                progress := 20;
                status := "Task created. Starting video generation..." |} |};
      log := log c ++ [FetchGenerate
                         {| Generate.imageData := JStr image;
                            Generate.prompt := JStr (prompt (session c));
                            Generate.quality := JStr (quality_string (quality (session c)));
                            Generate.duration :=
                              JNum (duration_number (duration (session c)));
                            Generate.fps := JNum (fps_number (fps (session c)));
                            Generate.size :=
                              JStr (resolution_string (resolution (session c))) |}] |}).
Proof.
  intros Hi. unfold generateVideo, getSession, bind. rewrite Hi. reflexivity.
Qed.

(** X14: the request the page builds from an uploaded image data URL
    always passes the validation of the submission route, and the provider
    receives the image and the selected quality, duration, fps and size
    exactly as chosen, with no default applied to them; only an empty
    prompt is replaced, by the route's default prompt. *)
Theorem page_request_reaches_provider (P : behaviour) (w : world) (s : Session)
  (image : string) :
  String.prefix "data:image/" image = true ->
  client_available P w ->
  Generate.submissions (calls (snd (Generate.POST P (inr (Generate.Body (request_of image s))) w))) =
  Generate.submissions (calls w) ++
  [{| Provider.image_url := JStr image;
      Provider.prompt :=
        if String.eqb (prompt s) ""
        then JStr "Make this image come alive with smooth, loopable motion"
        else JStr (prompt s);
      Provider.quality := JStr (quality_string (quality s));
      Provider.duration := JNum (duration_number (duration s));
      Provider.fps := JNum (fps_number (fps s));
      Provider.size := JStr (resolution_string (resolution s)) |}].
Proof.
  intros Hp Hc.
  rewrite GenerateFacts.POST_accepted; [| now exists image | exact Hc].
  f_equal. f_equal. unfold Generate.params_of, request_of, or_else.
  cbn [Generate.imageData Generate.prompt Generate.quality Generate.duration
       Generate.fps Generate.size truthy].
  destruct (String.eqb (prompt s) ""); cbn [negb];
    destruct (quality s), (duration s), (fps s), (resolution s); reflexivity.
Qed.

Lemma page_request_reaches_provider_witness :
  Generate.submissions
    (calls (snd (Generate.POST obliging
                   (inr (Generate.Body (request_of sample_image
                           {| uploadedImage := Some sample_image;
                              generatedVideoUrl := JNull; taskId := JNull;
                              prompt := ""; quality := Quality; duration := d10;
                              fps := f60; resolution := r1920x1080;
                              generateState := idle |})))
                   fresh)))
  = [{| Provider.image_url := JStr sample_image;
        Provider.prompt := JStr "Make this image come alive with smooth, loopable motion";
        Provider.quality := JStr "quality";
        Provider.duration := JNum 10;
        Provider.fps := JNum 60;
        Provider.size := JStr "1920x1080" |}].
Proof.
  refine (page_request_reaches_provider obliging fresh
            {| uploadedImage := Some sample_image;
               generatedVideoUrl := JNull; taskId := JNull;
               prompt := ""; quality := Quality; duration := d10;
               fps := f60; resolution := r1920x1080;
               generateState := idle |}
            sample_image eq_refl _).
  right. exists 1%nat. reflexivity.
Defined.

(** X15: [generateVideo] is its first half followed, when a request was
    sent, by its second half on the state the first half left; and a reset
    between the two does not stop the second half: on an OK answer it
    stores the task id in the cleared session, marks it as polling with
    progress 20 although no image is left and [isGenerating] is false, and
    starts the poll loop for that task.  The reset itself logs nothing: the
    image is still shown when it is pressed, so there is no file input to
    clear. *)
Theorem reset_during_submission (c : client) (image : string) (reply : fetch_outcome)
  (d : data) :
  image_of (session c) = Some image ->
  generateVideo reply c = generateVideo_resume reply (snd (generateVideo_begin c))
  /\ generateVideo_resume (inr (true, d)) (snd (resetUpload (snd (generateVideo_begin c)))) =
     (inr (Some (data_taskId d)),
      {| session :=
           {| uploadedImage := None; generatedVideoUrl := JNull;
              taskId := data_taskId d;
              prompt := prompt (session c); quality := quality (session c);
              duration := duration (session c); fps := fps (session c);
              resolution := resolution (session c);
              generateState :=
                {| isUploading := false; isGenerating := false; isPolling := true;
                   progress := 20;
                   status := "Task created. Starting video generation..." |} |};
         log := log c ++ [FetchGenerate (request_of image (session c))] |}).
Proof.
  intros Hi. split.
  - rewrite generateVideo_split. unfold generateVideo_begin, getSession, bind.
    rewrite Hi. reflexivity.
  - assert (Hsent : snd (generateVideo_begin c) =
                    {| session :=
                         with_generateState
                           (fun _ =>
                              {| isUploading := true; isGenerating := true;
                                 isPolling := false; progress := 10;
                                 status := "Creating video generation task..." |})
                           (session c);
                       log := log c ++ [FetchGenerate (request_of image (session c))] |})
      by (unfold generateVideo_begin, getSession, bind; rewrite Hi; reflexivity).
    rewrite Hsent, resetUpload_result.
    rewrite (image_hides_file_input _ image) by exact Hi.
    cbn. now rewrite app_nil_r.
Qed.

Lemma reset_during_submission_witness :
  taskId (session (snd (generateVideo_resume created
                          (snd (resetUpload (snd (generateVideo_begin with_image)))))))
  = JStr "task-1".
Proof.
  exact (f_equal (fun r => taskId (session (snd r)))
           (proj2 (reset_during_submission with_image sample_image created
                     {| data_error := None; data_taskId := JStr "task-1";
                        data_status := JStr "PROCESSING"; data_videoUrl := JUndefined |}
                     eq_refl))).
Defined.

(** ** The poll loop *)

Lemma poll_chain_log (tid : value) (replies : nat -> fetch_outcome) (fuel : nat) :
  forall (pollCount : nat) (c : client) (seen : list Session) (final : client),
    poll_chain fuel tid replies pollCount c = Some (seen, final) ->
    exists d title message,
      log final = log c ++ rounds tid (List.length seen)
                  ++ [FetchStatus tid; Toast d title message].
Proof.
  induction fuel as [|fuel IH]; intros pollCount c seen final H; [discriminate H|].
  cbn [poll_chain] in H. rewrite poll_unfold in H.
  destruct (reply_cases pollCount (replies pollCount)) as [Hr | [[Hk Hlt] | [Hnr Hnk]]].
  - destruct Hr as [d [Hd [Hs Hu]]]. rewrite Hd in H.
    rewrite poll_resume_succeeds in H by assumption.
    injection H as <- <-. cbn [List.length rounds app log].
    do 3 eexists. now rewrite <- app_assoc.
  - destruct Hk as [d [Hd [Hs Hf]]]. rewrite Hd in H.
    rewrite poll_resume_continues in H by assumption. cbn [session log] in H.
    destruct (poll_chain fuel tid replies (S pollCount) _) as [[seen' final']|] eqn:E;
      [|discriminate H].
    injection H as <- <-.
    destruct (IH _ _ _ _ E) as [dd [title [message Hlog]]].
    exists dd, title, message. rewrite Hlog. cbn [log List.length rounds].
    rewrite <- !app_assoc. reflexivity.
  - destruct (poll_resume_fails pollCount (replies pollCount)
                {| session := session c; log := log c ++ [FetchStatus tid] |} Hnr Hnk)
      as [msg Hm].
    rewrite Hm in H. injection H as <- <-. cbn [List.length rounds app log].
    do 3 eexists. now rewrite <- app_assoc.
Qed.

Lemma status_fetches_rounds (tid : value) (n : nat) (rest : list effect) :
  status_fetches (rounds tid n ++ rest) = repeat tid n ++ status_fetches rest.
Proof.
  induction n as [|n IH]; [reflexivity|].
  cbn [rounds app status_fetches repeat]. now rewrite IH.
Qed.

Lemma timers_rounds (tid : value) (n : nat) (rest : list effect) :
  timers (rounds tid n ++ rest) = repeat 3000%Z n ++ timers rest.
Proof.
  induction n as [|n IH]; [reflexivity|].
  cbn [rounds app timers repeat]. now rewrite IH.
Qed.

Lemma toasts_rounds (tid : value) (n : nat) (rest : list effect) :
  toasts (rounds tid n ++ rest) = toasts rest.
Proof.
  induction n as [|n IH]; [reflexivity|].
  cbn [rounds app toasts]. exact IH.
Qed.

(** X16: however the status requests are answered, a poll loop ends, after
    at most 201 requests and at most 200 timers.  Every request it makes is
    for the task id it was started with, whatever the session holds by then;
    every timer is of 3000 ms; it makes one request more than it sets
    timers; and it shows exactly one toast, when it ends. *)
Theorem poll_loop_is_bounded (tid : value) (replies : nat -> fetch_outcome) (c : client) :
  exists seen final added,
    pollForResults tid replies c = Some (seen, final)
    /\ log final = log c ++ added
    /\ (List.length seen <= 200)%nat
    /\ status_fetches added = repeat tid (S (List.length seen))
    /\ timers added = repeat 3000%Z (List.length seen)
    /\ List.length (toasts added) = 1%nat.
Proof.
  destruct (poll_chain_runs (S maxPolls) tid replies 0 c)
    as [seen [final [Hrun [Hlen _]]]]; [lia | lia |].
  destruct (poll_chain_log tid replies _ _ _ _ _ Hrun) as [d [title [message Hlog]]].
  exists seen, final, (rounds tid (List.length seen) ++ [FetchStatus tid; Toast d title message]).
  split; [exact Hrun|]. split; [exact Hlog|].
  split; [exact Hlen|].
  rewrite status_fetches_rounds, timers_rounds, toasts_rounds.
  cbn [status_fetches timers toasts List.length].
  split; [|split; [now rewrite app_nil_r | reflexivity]].
  change (S (List.length seen)) with (1 + List.length seen)%nat.
  rewrite Nat.add_comm, repeat_app. reflexivity.
Qed.

Lemma poll_chain_succeeds (tid : value) (replies : nat -> fetch_outcome) (d : data) :
  strict_eq (data_status d) (JStr "SUCCESS") = true ->
  truthy (data_videoUrl d) = true ->
  forall (n fuel pollCount : nat) (c : client),
    (forall k, (k < n)%nat -> keeps_polling (replies (pollCount + k)%nat)) ->
    replies (pollCount + n)%nat = inr (true, d) ->
    (pollCount + n <= maxPolls)%nat ->
    (n < fuel)%nat ->
    exists seen,
      List.length seen = n
      /\ poll_chain fuel tid replies pollCount c =
         Some (seen,
               {| session := with_generateState (fun _ => succeeded)
                               (with_generatedVideoUrl (data_videoUrl d) (session c));
                  log := log c ++ rounds tid n
                         ++ [FetchStatus tid;
                             Toast false "Success!"
                                   "Your animated video has been generated"] |}).
Proof.
  intros Hs Hu. induction n as [|n IH]; intros fuel pollCount c Hkeep Hlast Hle Hfuel;
    (destruct fuel as [|fuel]; [lia|]); cbn [poll_chain]; rewrite poll_unfold.
  - rewrite Nat.add_0_r in Hlast. rewrite Hlast.
    rewrite poll_resume_succeeds by assumption. cbn [session log].
    exists []. split; [reflexivity|]. cbn [rounds app]. now rewrite <- app_assoc.
  - destruct (Hkeep 0%nat ltac:(lia)) as [d0 [Hd0 [Hs0 Hf0]]].
    rewrite Nat.add_0_r in Hd0. rewrite Hd0.
    rewrite poll_resume_continues by (assumption || lia). cbn [session log].
    destruct (IH fuel (S pollCount)
                {| session := with_generateState (progress_update pollCount d0) (session c);
                   log := (log c ++ [FetchStatus tid]) ++ [SetTimeout 3000] |})
      as [seen [Hlen ->]].
    + intros k Hk. replace (S pollCount + k)%nat with (pollCount + S k)%nat by lia.
      apply Hkeep. lia.
    + replace (S pollCount + n)%nat with (pollCount + S n)%nat by lia. exact Hlast.
    + lia.
    + lia.
    + eexists (_ :: seen). split; [cbn [List.length]; now rewrite Hlen|].
      cbn [session log rounds]. rewrite <- !app_assoc. reflexivity.
Qed.

(** X17: when the first [n] status requests are answered by answers that
    keep polling and the next one by a SUCCESS with a video URL, with [n]
    anywhere from 0 to 200, the loop ends right there, after [n + 1]
    requests and [n] timers: the video URL of that answer is stored, the
    generation state is the success state with progress 100, and the
    success toast is shown.  A success at the very last request, with the
    counter at the ceiling, still counts. *)
Theorem poll_loop_success (tid : value) (replies : nat -> fetch_outcome) (c : client)
  (n : nat) (d : data) :
  (n <= 200)%nat ->
  (forall k, (k < n)%nat -> keeps_polling (replies k)) ->
  replies n = inr (true, d) ->
  strict_eq (data_status d) (JStr "SUCCESS") = true ->
  truthy (data_videoUrl d) = true ->
  exists seen,
    List.length seen = n
    /\ pollForResults tid replies c =
       Some (seen,
             {| session :=
                  {| uploadedImage := uploadedImage (session c);
                     generatedVideoUrl := data_videoUrl d;
                     taskId := taskId (session c);
                     prompt := prompt (session c); quality := quality (session c);
                     duration := duration (session c); fps := fps (session c);
                     resolution := resolution (session c);
                     generateState :=
                       {| isUploading := false; isGenerating := false;
                          isPolling := false; progress := 100;
                          status := "Video generated successfully!" |} |};
                log := log c ++ rounds tid n
                       ++ [FetchStatus tid;
                           Toast false "Success!"
                                 "Your animated video has been generated"] |}).
Proof.
  intros Hn Hkeep Hlast Hs Hu.
  exact (poll_chain_succeeds tid replies d Hs Hu n (S maxPolls) 0 c Hkeep Hlast
           ltac:(unfold maxPolls; lia) ltac:(unfold maxPolls; lia)).
Qed.

Lemma poll_loop_success_witness :
  exists seen : list Session,
    List.length seen = 2%nat
    /\ option_map (fun run => generatedVideoUrl (session (snd run)))
         (pollForResults (JStr "task-1")
            (fun k => if (k <? 2)%nat then processing else finished) polling)
       = Some (JStr "https://cdn.example/video.mp4").
Proof.
  destruct (poll_loop_success (JStr "task-1")
              (fun k => if (k <? 2)%nat then processing else finished) polling 2
              {| data_error := None; data_taskId := JStr "task-1";
                 data_status := JStr "SUCCESS";
                 data_videoUrl := JStr "https://cdn.example/video.mp4" |})
    as [seen [Hlen Hrun]].
  - lia.
  - intros k Hk. destruct k as [|[|k]]; [| |lia];
      (eexists; split; [reflexivity|]; split; reflexivity).
  - reflexivity.
  - reflexivity.
  - reflexivity.
  - exists seen. split; [exact Hlen|]. rewrite Hrun. reflexivity.
Defined.

(** X18: every way a run of [poll] can fail ends the loop the same way (the
    generation state is reset, nothing else in the session changes, no timer
    is set, one failure toast is shown) and differs only in the text: the
    message of the error when the request throws an [Error], "Failed to
    generate video" when it throws anything else, the route's [error] when
    the response is not OK and carries one, "Failed to check status" when
    it carries none, and "Video generation failed" when the status is FAIL.
    A response that is not OK fails even if its body says SUCCESS. *)
Theorem poll_failure_messages (pollCount : nat) (c : client) :
  let failed := fun message : string =>
    (@inr exn (option nat) None,
     {| session := with_generateState (fun _ => idle) (session c);
        log := log c ++ [Toast true "Generation failed" message] |}) in
  (forall m, poll_resume pollCount (inl (Error m)) c = failed m)
  /\ (forall v, poll_resume pollCount (inl (Thrown v)) c = failed "Failed to generate video")
  /\ (forall d m, data_error d = Some m -> m <> "" ->
      poll_resume pollCount (inr (false, d)) c = failed m)
  /\ (forall d, data_error d = None \/ data_error d = Some "" ->
      poll_resume pollCount (inr (false, d)) c = failed "Failed to check status")
  /\ (forall d, strict_eq (data_status d) (JStr "FAIL") = true ->
      poll_resume pollCount (inr (true, d)) c = failed "Video generation failed").
Proof.
  intros failed. subst failed. cbv beta.
  split; [reflexivity|]. split; [reflexivity|]. split; [|split].
  - intros d m Hm Hne. run_handler. cbn [negb]. unfold error_or. rewrite Hm.
    now rewrite (ServerFacts.nonempty_truthy m Hne).
  - intros d [Hm | Hm]; run_handler; cbn [negb]; unfold error_or; now rewrite Hm.
  - intros d Hf. pose proof (strict_eq_string _ _ Hf) as Hst.
    run_handler. cbn [negb]. rewrite Hst. reflexivity.
Qed.

(** X19: a run of [poll] does not look at which task or which image the
    session holds: started on a session with another task id and another
    uploaded image it returns the same result, logs the same effects and
    makes the same changes to the rest of the session. *)
Theorem poll_ignores_current_task (pollCount : nat) (reply : fetch_outcome) (c : client)
  (other_task : value) (other_image : option string) :
  poll_resume pollCount reply
    {| session := with_taskId other_task (with_uploadedImage other_image (session c));
       log := log c |}
  = (fst (poll_resume pollCount reply c),
     {| session := with_taskId other_task
                     (with_uploadedImage other_image
                        (session (snd (poll_resume pollCount reply c))));
        log := log (snd (poll_resume pollCount reply c)) |}).
Proof.
  destruct reply as [e | [[|] d]]; run_handler; cbn [negb]; try reflexivity.
  destruct (strict_eq (data_status d) (JStr "SUCCESS") && truthy (data_videoUrl d));
    [reflexivity|].
  destruct (strict_eq (data_status d) (JStr "FAIL")); [reflexivity|].
  destruct (pollCount <? maxPolls)%nat; reflexivity.
Qed.

(** ** The routes and the page together *)

(** X20: the URL the status route resolves is the URL the page ends up
    with.  For a SUCCESS result whose first non-empty URL field is a string,
    the page, polling with the route's answer at any counter value, stores
    exactly that string as the video URL, sets the success state and ends
    the loop. *)
Theorem resolved_url_reaches_page (P : behaviour) (w : world) (t u : string)
  (r : query_result) (pollCount : nat) (c : client) :
  t <> "" ->
  client_available P w ->
  result_query P t = inr r ->
  strict_eq (task_status r) (JStr "SUCCESS") = true ->
  find truthy [Status.first_entry_url r; video_url r; url r; video r] = Some (JStr u) ->
  exists resp,
    fst (Status.GET P (Some t) w) = inr resp
    /\ poll_resume pollCount (reply_of resp) c =
       (inr None,
        {| session := with_generateState (fun _ => succeeded)
                        (with_generatedVideoUrl (JStr u) (session c));
           log := log c ++ [Toast false "Success!"
                                  "Your animated video has been generated"] |}).
Proof.
  intros Ht Hc Hr Hs Hfind.
  destruct (StatusFacts.GET_run P w t Ht Hc) as [h ->]. rewrite Hr. cbn [fst].
  eexists. split; [reflexivity|].
  rewrite StatusFacts.response_of_spec.
  unfold Status.spec_videoUrl, Status.first_non_empty, Status.url_fields.
  rewrite Hs, Hfind, (strict_eq_string _ _ Hs).
  apply find_some in Hfind. destruct Hfind as [_ Hu].
  unfold reply_of. cbn [ok_of json code body data_of through_json].
  now rewrite poll_resume_succeeds.
Qed.

Lemma resolved_url_reaches_page_witness :
  exists resp,
    fst (Status.GET (answering two_locations) (Some "task-1") fresh) = inr resp
    /\ generatedVideoUrl (session (snd (poll_resume 3 (reply_of resp) polling)))
       = JStr "https://a.example/v.mp4".
Proof.
  destruct (resolved_url_reaches_page (answering two_locations) fresh "task-1"
              "https://a.example/v.mp4" two_locations 3 polling)
    as [resp [Hresp Hpoll]].
  - discriminate.
  - right. exists 1%nat. reflexivity.
  - reflexivity.
  - reflexivity.
  - reflexivity.
  - exists resp. split; [exact Hresp|]. rewrite Hpoll. reflexivity.
Defined.

Lemma generateVideo_not_ok (d : data) (c : client) (image : string) :
  image_of (session c) = Some image ->
  generateVideo (inr (false, d)) c =
  (inr None,
   {| session := with_generateState (fun _ => idle) (session c);
      log := log c ++ [FetchGenerate (request_of image (session c));
                       Toast true "Generation failed"
                             (error_or d "Failed to create video generation task")] |}).
Proof.
  intros Hi. unfold generateVideo, getSession, bind. rewrite Hi.
  unfold try_catch, bind, lift, throw, generation_failed, toast, emit, setGenerateState,
    update, modify, ret.
  unfold bind. cbn [negb session log message_or fst snd].
  rewrite <- app_assoc. reflexivity.
Qed.

(** X21: what the provider answers to a submission is what the page acts
    on.  For the request the page builds from an uploaded image data URL:
    when the provider returns a task whose id is a string, the page stores
    that id as the task id and starts the poll loop for it; when the
    provider throws an [Error] with a non-empty message, the page shows that
    message in its failure toast and starts no loop. *)
Theorem submission_outcome_reaches_page (P : behaviour) (w : world) (c : client)
  (image : string) :
  image_of (session c) = Some image ->
  String.prefix "data:image/" image = true ->
  client_available P w ->
  exists resp,
    fst (Generate.POST P (inr (Generate.Body (request_of image (session c)))) w) = inr resp
    /\ (forall task tid,
          generations_create P (Generate.params_of (request_of image (session c)))
          = inr task ->
          id task = JStr tid ->
          fst (generateVideo (reply_of resp) c) = inr (Some (JStr tid))
          /\ taskId (session (snd (generateVideo (reply_of resp) c))) = JStr tid)
    /\ (forall m,
          generations_create P (Generate.params_of (request_of image (session c)))
          = inl (Error m) ->
          m <> "" ->
          generateVideo (reply_of resp) c =
          (inr None,
           {| session := with_generateState (fun _ => idle) (session c);
              log := log c ++ [FetchGenerate (request_of image (session c));
                               Toast true "Generation failed" m] |})).
Proof.
  intros Hi Hp Hc.
  assert (Hu : Generate.image_data_url (Generate.imageData (request_of image (session c))))
    by (now exists image).
  destruct (RouteProperties.POST_cases P (inr (Generate.Body (request_of image (session c)))) w)
    as [[e [Hq H]] | [[b' [msg [Hq [Ha H]]]] | [[b' [Hq [Ht [Hn H]]]]
       | [[b' [e [Hq [_ [Hw [He H]]]]]] | [[b' [e [h [Hq [_ [_ [Hg H]]]]]]]
       | [b' [task [h [Hq [_ [_ [Hg H]]]]]]]]]]]];
    try discriminate Hq; injection Hq as <-.
  - now elim (RouteProperties.valid_excludes_invalid _ Hu Ha).
  - destruct Hu as [s [Hs _]]. now elim (Hn s).
  - now elim (RouteProperties.not_both P w e Hc Hw He).
  - rewrite H. cbn [fst]. eexists. split; [reflexivity|]. rewrite Hg.
    split; [intros task tid Hx; discriminate Hx|].
    intros m Hx Hne. injection Hx as ->.
    change (reply_of (json_status
                        (ErrorBody (message_or (Error m)
                                      "Failed to create video generation task")) 500))
      with (@inr exn (bool * data)
              (false, {| data_error := Some m; data_taskId := JUndefined;
                         data_status := JUndefined; data_videoUrl := JUndefined |})).
    rewrite (generateVideo_not_ok _ c image Hi).
    unfold error_or. cbn [data_error].
    now rewrite (ServerFacts.nonempty_truthy m Hne).
  - rewrite H. cbn [fst]. eexists. split; [reflexivity|]. rewrite Hg.
    split; [|intros m Hx; discriminate Hx].
    intros task' tid Hx Hid. injection Hx as <-.
    unfold generateVideo, getSession, bind. rewrite Hi.
    unfold reply_of. cbn [ok_of json code body data_of]. rewrite Hid. cbn.
    split; reflexivity.
Qed.

Lemma submission_outcome_reaches_page_witness :
  exists resp,
    fst (Generate.POST obliging (inr (Generate.Body (request_of sample_image (session with_image)))) fresh)
    = inr resp
    /\ taskId (session (snd (generateVideo (reply_of resp) with_image))) = JStr "task-1".
Proof.
  destruct (submission_outcome_reaches_page obliging fresh with_image sample_image)
    as [resp [Hresp [Hok _]]].
  - reflexivity.
  - reflexivity.
  - right. exists 1%nat. reflexivity.
  - exists resp. split; [exact Hresp|].
    exact (proj2 (Hok {| id := JStr "task-1"; created_status := JStr "PROCESSING" |}
                      "task-1" eq_refl eq_refl)).
Defined.

(** ** The elapsed time shown while polling *)

Lemma elapsed_is_rounded :
  forallb (fun k =>
             String.eqb (elapsedMinutes k) (Num.tenths (Z.of_nat k / 2))
             || String.eqb (elapsedMinutes k) (Num.tenths ((Z.of_nat k + 1) / 2)))
          (seq 0 (S maxPolls)) = true.
Proof. vm_compute. reflexivity. Qed.

(** X22: at every counter value the loop can reach, the elapsed time in the
    status message is the counter times 0.05 minutes written with one
    decimal: exactly when the counter is even, and rounded to one of the two
    neighbouring tenths when it is odd; it goes from "0.0" to "10.0". *)
Theorem elapsed_minutes_shown (k : nat) :
  (k <= maxPolls)%nat ->
  (Nat.even k = true -> elapsedMinutes k = Num.tenths (Z.of_nat k / 2))
  /\ (elapsedMinutes k = Num.tenths (Z.of_nat k / 2)
      \/ elapsedMinutes k = Num.tenths (Z.of_nat k / 2 + 1))
  /\ elapsedMinutes 0 = "0.0" /\ elapsedMinutes maxPolls = "10.0".
Proof.
  intros Hk. pose proof elapsed_is_rounded as A. rewrite forallb_forall in A.
  specialize (A k ltac:(apply in_seq; lia)).
  apply orb_true_iff in A. rewrite !String.eqb_eq in A.
  assert (Hodd : Nat.even k = false -> ((Z.of_nat k + 1) / 2 = Z.of_nat k / 2 + 1)%Z).
  { intros Ho. rewrite <- Nat.negb_odd in Ho. apply negb_false_iff, Nat.odd_spec in Ho.
    destruct Ho as [m ->].
    replace (Z.of_nat (2 * m + 1) + 1)%Z with ((Z.of_nat m + 1) * 2)%Z by lia.
    replace (Z.of_nat (2 * m + 1))%Z with (1 + Z.of_nat m * 2)%Z by lia.
    rewrite Z.div_mul, Z.div_add by lia. reflexivity. }
  assert (Heven : Nat.even k = true -> ((Z.of_nat k + 1) / 2 = Z.of_nat k / 2)%Z).
  { intros He. apply Nat.even_spec in He. destruct He as [m ->].
    replace (Z.of_nat (2 * m) + 1)%Z with (1 + Z.of_nat m * 2)%Z by lia.
    replace (Z.of_nat (2 * m))%Z with (Z.of_nat m * 2)%Z by lia.
    rewrite Z.div_mul, Z.div_add by lia. reflexivity. }
  split; [|split; [|split; [reflexivity | exact elapsed_at_ceiling]]].
  - intros He. destruct A as [A | A]; [exact A | now rewrite <- (Heven He)].
  - destruct (Nat.even k) eqn:He.
    + left. destruct A as [A | A]; [exact A | now rewrite <- (Heven eq_refl)].
    + destruct A as [A | A]; [now left | right; now rewrite <- (Hodd eq_refl)].
Qed.

Lemma elapsed_minutes_shown_witness :
  elapsedMinutes 40 = Num.tenths 20.
Proof.
  exact (proj1 (elapsed_minutes_shown 40 ltac:(unfold maxPolls; lia)) eq_refl).
Defined.

(** ** Download *)

(** X23: the download follows the video URL of the session.  With no video
    URL [handleDownload] does nothing at all, which is always the case right
    after a reset and right after an accepted upload; with one it clicks a
    link to exactly that URL, named after the current time, and shows the
    "Download started" toast without touching the session; and right after
    a poll run that ended in success the link is to the URL of that answer. *)
Theorem download_follows_video (now : Z) (c : client) :
  (truthy (generatedVideoUrl (session c)) = false ->
   handleDownload now c = (inr None, c))
  /\ (truthy (generatedVideoUrl (session c)) = true ->
      handleDownload now c =
      (inr (Some {| href := generatedVideoUrl (session c);
                    download := ("animated-video-" ++ Num.decimal now ++ ".mp4")%string |}),
       {| session := session c;
          log := log c ++ [Toast false "Download started"
                                 "Your video is being downloaded"] |}))
  /\ fst (handleDownload now (snd (resetUpload c))) = inr None
  /\ (forall file, fst (handleDownload now (snd (onloadend file c))) = inr None)
  /\ (forall pollCount d,
        strict_eq (data_status d) (JStr "SUCCESS") = true ->
        truthy (data_videoUrl d) = true ->
        fst (handleDownload now (snd (poll_resume pollCount (inr (true, d)) c))) =
        inr (Some {| href := data_videoUrl d;
                     download := ("animated-video-" ++ Num.decimal now ++ ".mp4")%string |})).
Proof.
  unfold handleDownload, getSession, bind.
  split; [intros H; rewrite H; now destruct c|].
  split; [intros H; now rewrite H|].
  split; [now rewrite resetUpload_result|]. split; [reflexivity|].
  intros pollCount d Hs Hu. rewrite poll_resume_succeeds by assumption.
  cbn [snd session with_generateState with_generatedVideoUrl generatedVideoUrl].
  now rewrite Hu.
Qed.

(** ** The generation parameters *)

Lemma same_parameters_refl (s : Session) : same_parameters s s.
Proof. repeat split. Qed.

(** X24: no handler of the page ever changes the prompt, the quality, the
    duration, the fps or the resolution the user has chosen: not an upload
    by picker or by drop, accepted or refused, not a reset, not a
    generation, whatever its answer, not a run of the poll loop, whatever
    its answer, and not a download. *)
Theorem parameters_are_never_changed (c : client) (file : option File)
  (reply : fetch_outcome) (tid : value) (pollCount : nat) (now : Z) :
  same_parameters (session c) (session (snd (handleImageUpload file c)))
  /\ same_parameters (session c) (session (snd (handleDrop file c)))
  /\ same_parameters (session c) (session (snd (resetUpload c)))
  /\ same_parameters (session c) (session (snd (generateVideo reply c)))
  /\ same_parameters (session c) (session (snd (poll tid pollCount reply c)))
  /\ same_parameters (session c) (session (snd (handleDownload now c))).
Proof.
  split; [|split; [|split; [|split; [|split]]]].
  - unfold handleImageUpload. destruct file as [f|]; [|apply same_parameters_refl].
    destruct (too_large f); [apply same_parameters_refl|].
    destruct (String.prefix "image/" (type f)); repeat split.
  - unfold handleDrop. destruct file as [f|]; [|apply same_parameters_refl].
    destruct (String.prefix "image/" (type f)); [|apply same_parameters_refl].
    destruct (too_large f); repeat split.
  - rewrite resetUpload_result. repeat split.
  - unfold generateVideo, getSession, bind.
    destruct (image_of (session c)); [|repeat split].
    destruct reply as [e | [[|] d]]; repeat split.
  - rewrite poll_unfold.
    pose proof (poll_resume_frame pollCount reply
                  {| session := session c; log := log c ++ [FetchStatus tid] |})
      as [_ [_ H]].
    exact H.
  - unfold handleDownload, getSession, bind.
    destruct (truthy (generatedVideoUrl (session c))); repeat split.
Qed.

(** ** Statuses the page does not know *)

(** X25: only SUCCESS with a video URL and FAIL end the loop before the
    ceiling.  An OK answer with any other status (PENDING, PROCESSING, a
    status the page has never heard of, no status at all) below the ceiling
    keeps the three flags and the video URL as they are, sets the progress
    estimate, schedules the next request after 3000 ms, and shows the
    elapsed time only for PROCESSING: every other status reads "Almost
    done...". *)
Theorem other_statuses_keep_polling (pollCount : nat) (d : data) (c : client) :
  (pollCount < maxPolls)%nat ->
  strict_eq (data_status d) (JStr "SUCCESS") = false ->
  strict_eq (data_status d) (JStr "FAIL") = false ->
  poll_resume pollCount (inr (true, d)) c =
  (inr (Some (S pollCount)),
   {| session :=
        {| uploadedImage := uploadedImage (session c);
           generatedVideoUrl := generatedVideoUrl (session c);
           taskId := taskId (session c);
           prompt := prompt (session c); quality := quality (session c);
           duration := duration (session c); fps := fps (session c);
           resolution := resolution (session c);
           generateState :=
             {| isUploading := isUploading (generateState (session c));
                isGenerating := isGenerating (generateState (session c));
                isPolling := isPolling (generateState (session c));
                progress := progress_at pollCount;
                status :=
                  if strict_eq (data_status d) (JStr "PROCESSING")
                  then ("Generating your animated video... ("
                        ++ elapsedMinutes pollCount ++ " minutes elapsed)")%string
                  else "Almost done..." |} |};
      log := log c ++ [SetTimeout 3000] |}).
Proof.
  intros Hlt Hs Hf. rewrite poll_resume_continues; [reflexivity | | exact Hf | exact Hlt].
  now rewrite Hs.
Qed.

Lemma other_statuses_keep_polling_witness :
  status (generateState
            (session (snd (poll_resume 5 (answer (JStr "PENDING") JUndefined) polling))))
  = "Almost done...".
Proof.
  exact (f_equal (fun r => status (generateState (session (snd r))))
           (other_statuses_keep_polling 5
              {| data_error := None; data_taskId := JStr "task-1";
                 data_status := JStr "PENDING"; data_videoUrl := JUndefined |}
              polling ltac:(unfold maxPolls; lia) eq_refl eq_refl)).
Defined.

End PageProperties.

(* ================================================================== *)
(** * The optional parameters of a submission *)

Module ParameterProperties.
Import ServerFacts.
Local Open Scope list_scope.

(** X26: the submission route validates nothing but [imageData].  Whatever
    truthy values the optional fields carry (a duration that is not 5 or 10,
    a size off the list, a number where a string is expected) reach the
    provider exactly as they came. *)
Theorem optional_fields_are_not_validated (P : behaviour) (w : world)
  (b : Generate.request_body) :
  Generate.image_data_url (Generate.imageData b) ->
  client_available P w ->
  truthy (Generate.prompt b) = true ->
  truthy (Generate.quality b) = true ->
  truthy (Generate.duration b) = true ->
  truthy (Generate.fps b) = true ->
  truthy (Generate.size b) = true ->
  Generate.submissions (calls (snd (Generate.POST P (inr (Generate.Body b)) w))) =
  Generate.submissions (calls w) ++
  [{| Provider.image_url := Generate.imageData b;
      Provider.prompt := Generate.prompt b;
      Provider.quality := Generate.quality b;
      Provider.duration := Generate.duration b;
      Provider.fps := Generate.fps b;
      Provider.size := Generate.size b |}].
Proof.
  intros Hu Hc H1 H2 H3 H4 H5.
  rewrite GenerateFacts.POST_accepted by assumption.
  unfold Generate.params_of, or_else. now rewrite H1, H2, H3, H4, H5.
Qed.

Lemma optional_fields_are_not_validated_witness :
  Generate.submissions
    (calls (snd (Generate.POST obliging
                   (inr (Generate.Body {| Generate.imageData := JStr "data:image/png;base64,AAAA";
                           Generate.prompt := JNum 42;
                           Generate.quality := JStr "ultra";
                           Generate.duration := JNum 7;
                           Generate.fps := JStr "fast";
                           Generate.size := JStr "1x1" |}))
                   fresh)))
  = [{| Provider.image_url := JStr "data:image/png;base64,AAAA";
        Provider.prompt := JNum 42;
        Provider.quality := JStr "ultra";
        Provider.duration := JNum 7;
        Provider.fps := JStr "fast";
        Provider.size := JStr "1x1" |}].
Proof.
  refine (optional_fields_are_not_validated obliging fresh
            {| Generate.imageData := JStr "data:image/png;base64,AAAA";
               Generate.prompt := JNum 42;
               Generate.quality := JStr "ultra";
               Generate.duration := JNum 7;
               Generate.fps := JStr "fast";
               Generate.size := JStr "1x1" |}
            _ _ eq_refl eq_refl eq_refl eq_refl eq_refl).
  - eexists. split; reflexivity.
  - right. exists 1%nat. reflexivity.
Defined.

End ParameterProperties.
